(** * Schema-driven batch ETL: the CSV-to-JSON converter and the CSV-to-database loader

    Shallow embedding of
      - [python_essentials/apps/File_Format_Converter/app.py]  (module [Converter])
      - [python_essentials/apps/file-to-db-loader/app.py]      (module [Loader])
    together with the pieces of the Python runtime, of [glob], [re], [json],
    [pandas] and [multiprocessing] that the two scripts call. *)

From Stdlib Require Import ZArith Lia Ascii String.
From stdpp Require Import base option list strings pretty sorting gmap.


(** ** The Python runtime pieces the scripts rely on *)

Module Py.

(** Exceptions that the modelled calls can raise.  All of them are
    subclasses of [Exception]; only [NameError] is a [NameError]. *)
Inductive exn : Type :=
  | KeyError (key : string)          (* d[k] with k not in d *)
  | NameError (msg : string)         (* raised by the scripts themselves *)
  | IndexError                       (* l[-2] on a list shorter than 2 *)
  | OSError (path : string)          (* open() / pd.read_csv on something unreadable *)
  | DatabaseError (table : string)   (* df.to_sql on a write the store refuses *)
  | ValueError (msg : string).       (* multiprocessing.Pool(0) *)

Definition is_NameError (e : exn) : bool :=
  match e with NameError _ => true | _ => false end.

(** A Python [dict] as produced by [json.load]: insertion ordered, one
    binding per key.  It is kept as an association list because the order
    of [keys()] is the order in which the dispatcher visits the datasets. *)
Definition dict (V : Type) : Type := list (string * V).

Fixpoint dict_get {V} (d : dict V) (k : string) : option V :=
  match d with
  | [] => None
  | (k', v) :: d' => if String.eqb k' k then Some v else dict_get d' k
  end.

Definition dict_keys {V} (d : dict V) : list string := map fst d.

(** [d[k] = v]: an existing key keeps its place and takes the new value, a
    new key goes to the end. *)
Fixpoint dict_set {V} (d : dict V) (k : string) (v : V) : dict V :=
  match d with
  | [] => [(k, v)]
  | (k', v') :: d' =>
      if String.eqb k' k then (k', v) :: d' else (k', v') :: dict_set d' k v
  end.

(** The dict that the JSON parser builds from the members of an object, in
    document order (a repeated member name overwrites). *)
Definition dict_of_members {V} (members : list (string * V)) : dict V :=
  fold_left (fun d kv => dict_set d (fst kv) (snd kv)) members [].

(** [sorted(l, key=...)] with integer keys: ascending and stable.  An element
    is placed in front of the first later element whose key is not smaller,
    so equal keys keep the order they had in [l]. *)
Section Sorted.
Context {A : Type} (key : A → Z).

Fixpoint insert_sorted (x : A) (l : list A) : list A :=
  match l with
  | [] => [x]
  | y :: l' =>
      if (key x <=? key y)%Z then x :: y :: l' else y :: insert_sorted x l'
  end.

Fixpoint sorted (l : list A) : list A :=
  match l with
  | [] => []
  | x :: l' => insert_sorted x (sorted l')
  end.
End Sorted.

(** [re.split('[/\\]', s)]: cut [s] at every slash and backslash.  The
    result always has at least one segment. *)
Definition is_sep (c : ascii) : bool :=
  (Ascii.eqb c "/" || Ascii.eqb c "\")%char%bool.

Fixpoint re_split (s : string) : list string :=
  match s with
  | EmptyString => [EmptyString]
  | String c rest =>
      if is_sep c then EmptyString :: re_split rest
      else match re_split rest with
           | seg :: segs => String c seg :: segs
           | [] => [String c EmptyString]
           end
  end.

(** [l[-1]] and [l[-2]]. *)
Definition index_last {A} (l : list A) : option A := last l.

Definition index_last2 {A} (l : list A) : option A :=
  match rev l with
  | _ :: x :: _ => Some x
  | _ => None
  end.

(** [s.startswith(p)], used for the [part-*] file-name pattern. *)
Fixpoint startswith (p s : string) : bool :=
  match p, s with
  | EmptyString, _ => true
  | String a p', String b s' => Ascii.eqb a b && startswith p' s'
  | String _ _, EmptyString => false
  end.

End Py.

(** ** Data model *)

(** One entry of a dataset's column list in [schemas.json]:
    [{"column_name": ..., "column_position": ...}]. *)
Record Column : Type := mkColumn {
  column_name : string;
  column_position : Z
}.

(** The parsed schema document: dataset name -> column definitions. *)
Definition Schemas : Type := Py.dict (list Column).

(** A row of a headerless delimited file: its raw fields, left to right. *)
Definition Row : Type := list string.

(** A pandas [DataFrame] as the scripts use it: the column names given by
    [names=...] and the rows read, in file order.  What pandas does to the
    fields of a row (type inference, filling of missing fields) is not
    modelled: a row stays the sequence of its raw fields. *)
Record DataFrame : Type := mkDataFrame {
  df_columns : list string;
  df_rows : list Row
}.

(** What a run finds around it and does not change:
    - [json_docs]: the parsed JSON document at a path;
    - [globbed]: for a pattern, the paths that [glob.glob] returns for it,
      in the order it returns them.  The expansion is the file system's and
      the library's (wildcards in any segment, normalised separators) and is
      taken as given, not computed;
    - [csv_rows]: the rows of the delimited file at a path.  A path that
      [glob.glob] returns but [csv_rows] does not hold is something
      [pd.read_csv] cannot open (a directory, an unreadable file);
    - [db_accepts]: whether the database takes the append of a frame to the
      table of that name, given the frames the table holds ([None]: no such
      table yet).  A store refuses, for one, a frame whose columns are not
      those of the table.
    The files a run reads are kept apart from the files it writes
    ([target_files] below): what a run writes is not read back.  That is
    how the scripts behave within one run over a target root that holds
    none of the inputs; a second run over a target root that is also the
    source root is outside this model. *)
Record Source : Type := mkSource {
  json_docs : gmap string Schemas;
  globbed : gmap string (list string);
  csv_rows : gmap string (list Row);
  db_accepts : string → option (list DataFrame) → DataFrame → bool
}.

(** What a run prints and sets up. *)
Inductive event : Type :=
  | Printed (line : string)            (* print(f'...') *)
  | PrintedExn (e : Py.exn)            (* print(ne), print(e) *)
  | PoolCreated (processes : nat).   (* multiprocessing.Pool(processes) *)

(** The mutable world: the files under the target root, the tables of
    the database and everything printed so far, oldest first.  A file or a
    table is given by the frames written to it, oldest first: it holds the
    records of these frames, frame after frame and row after row.  How
    pandas renders the cells of a frame is not modelled. *)
Record World : Type := mkWorld {
  target_files : gmap string (list DataFrame);
  tables : gmap string (list DataFrame);
  trace : list event
}.

(** ** Computations that may raise and that change the world *)

Definition result (A : Type) : Type := (Py.exn + A)%type.

Definition M (A : Type) : Type := World → result A * World.

Definition ret {A} (x : A) : M A := fun w => (inr x, w).

Definition raise {A} (e : Py.exn) : M A := fun w => (inl e, w).

Definition bind {A B} (c : M A) (k : A → M B) : M B :=
  fun w => match c w with
           | (inr x, w') => k x w'
           | (inl e, w') => (inl e, w')
           end.

Definition lift {A} (r : result A) : M A := fun w => (r, w).

Notation "x <- c ;; k" := (bind c (fun x => k))
  (at level 90, c at level 89, right associativity).
Notation "c ;;; k" := (bind c (fun _ => k))
  (at level 90, right associativity).

Definition rbind {A B} (r : result A) (k : A → result B) : result B :=
  match r with
  | inr x => k x
  | inl e => inl e
  end.

Notation "x <~ r ;; k" := (rbind r (fun x => k))
  (at level 90, r at level 89, right associativity).

Definition emit (ev : event) : M unit :=
  fun w => (inr tt, mkWorld (target_files w) (tables w) (trace w ++ [ev])).

Definition print (line : string) : M unit := emit (Printed line).

(** [for x in l: body x]: the first exception that leaves the body ends
    the loop. *)
Fixpoint for_each {A} (l : list A) (body : A → M unit) : M unit :=
  match l with
  | [] => ret tt
  | x :: l' => body x ;;; for_each l' body
  end.

(** [try: body except <caught>: handler]; an exception for which
    [handler] gives [None] is not caught and goes on to the caller. *)
Definition try_except (body : M unit) (handler : Py.exn → option (M unit))
  : M unit :=
  fun w => match body w with
           | (inl e, w') =>
               match handler e with
               | Some h => h w'
               | None => (inl e, w')
               end
           | (inr x, w') => (inr x, w')
           end.

(** [try: body finally: cleanup]: [cleanup] runs in every case, then the
    outcome of [body] stands. *)
Definition try_finally (body cleanup : M unit) : M unit :=
  fun w => let '(r, w') := body w in
           match cleanup w' with
           | (inr _, w'') => (r, w'')
           | (inl e, w'') => (inl e, w'')
           end.

(** [not x] for an optional list argument: [None] and [[]] are falsy. *)
Definition falsy {A} (x : option (list A)) : bool :=
  match x with
  | Some (_ :: _) => false
  | _ => true
  end.

(** [enumerate(l)]. *)
Definition enumerate {A} (l : list A) : list (nat * A) :=
  combine (seq 0 (length l)) l.

(** The environment variables the scripts read with [os.environ.get]. *)
Record Environ : Type := mkEnviron {
  SRC_BASE_DIR : string;
  TGT_BASE_DIR : string;
  DB_HOST : string;
  DB_PORT : string;
  DB_NAME : string;
  DB_USER : string;
  DB_PASS : string
}.

(** ** Library calls *)

(** [json.load(open(path))]. *)
Definition json_load (env : Source) (path : string) : M Schemas :=
  match json_docs env !! path with
  | Some doc => ret doc
  | None => raise (Py.OSError path)
  end.

(** [glob.glob(f'{dir}/part-*')]: what the file system gives for that
    pattern; nothing when nothing matches. *)
Definition glob_part (env : Source) (dir : string) : list string :=
  default [] (globbed env !! (dir +:+ "/part-*")).

(** [pd.read_csv(file, names=columns)]: the whole file as one frame. *)
Definition pd_read_csv (env : Source) (file : string) (names : list string)
  : result DataFrame :=
  match csv_rows env !! file with
  | Some rows => inr (mkDataFrame names rows)
  | None => inl (Py.OSError file)
  end.

(** Consecutive groups of [n] rows, the last one with what is left. *)
Fixpoint chunks_fuel {A} (fuel n : nat) (l : list A) : list (list A) :=
  match fuel with
  | O => []
  | S fuel' =>
      match l with
      | [] => []
      | _ :: _ => take n l :: chunks_fuel fuel' n (drop n l)
      end
  end.

Definition chunks {A} (n : nat) (l : list A) : list (list A) :=
  chunks_fuel (length l) n l.

(** [pd.read_csv(file, names=columns, chunksize=n)]: the frames that
    iterating the returned reader yields.  A file without rows yields one
    empty frame (the reader's first chunk is always produced). *)
Definition iter_chunks (n : nat) (rows : list Row) : list (list Row) :=
  match rows with
  | [] => [[]]
  | _ :: _ => chunks n rows
  end.

Definition pd_read_csv_chunked (env : Source) (file : string)
    (names : list string) (chunksize : nat) : result (list DataFrame) :=
  match csv_rows env !! file with
  | Some rows => inr (map (mkDataFrame names) (iter_chunks chunksize rows))
  | None => inl (Py.OSError file)
  end.

(** [multiprocessing.Pool(processes)]. *)
Definition Pool (processes : nat) : M unit :=
  if (processes <? 1)%nat
  then raise (Py.ValueError "Number of processes must be at least 1")
  else emit (PoolCreated processes).

(** [pool.map(f, args)], under the schedule that takes the tasks in list
    order: every task runs, whatever the others did; the first exception
    of a task, if any, is raised again once all have run. *)
Fixpoint pool_map {A} (f : A → M unit) (args : list A) : M unit :=
  match args with
  | [] => ret tt
  | a :: args' =>
      fun w =>
        let '(r, w') := f a w in
        let '(r', w'') := pool_map f args' w' in
        (match r with inl e => inl e | inr _ => r' end, w'')
  end.

(** ** File_Format_Converter/app.py *)

Module Converter.

(** The scripts never pass [sorting_key]: the key is [column_position]. *)
Definition get_column_names (schemas : Schemas) (ds_name : string)
  : result (list string) :=
  match Py.dict_get schemas ds_name with
  | None => inl (Py.KeyError ds_name)
  | Some column_details =>
      let columns := Py.sorted column_position column_details in
      inr (map column_name columns)
  end.

Definition read_csv (env : Source) (file : string) (schemas : Schemas)
  : result DataFrame :=
  let file_path_list := Py.re_split file in
  match Py.index_last2 file_path_list with
  | None => inl Py.IndexError
  | Some ds_name =>
      columns <~ get_column_names schemas ds_name ;;
      pd_read_csv env file columns
  end.

(** [df.to_json(path, orient='records', lines=True)] opens [path] for
    writing: what the file held before is gone.  The target root is taken
    to be writable: the directory can be made and the file opened. *)
Definition to_json (df : DataFrame) (tgt_base_dir ds_name file_name : string)
  : M unit :=
  let json_file_path := tgt_base_dir +:+ "/" +:+ ds_name +:+ "/" +:+ file_name in
  fun w => (inr tt,
            mkWorld (<[json_file_path := [df]]> (target_files w))
                    (tables w) (trace w)).

Definition file_converter (env : Source) (src_base_dir tgt_base_dir ds_name : string)
  : M unit :=
  schemas <- json_load env (src_base_dir +:+ "/schemas.json") ;;
  let files := glob_part env (src_base_dir +:+ "/" +:+ ds_name) in
  if (length files =? 0)%nat
  then raise (Py.NameError ("file not found " +:+ ds_name))
  else
    for_each files (fun file =>
      df <- lift (read_csv env file schemas) ;;
      match Py.index_last (Py.re_split file) with
      | None => raise Py.IndexError
      | Some file_name => to_json df tgt_base_dir ds_name file_name
      end).

(** The body of the dispatcher's loop: only [NameError] is caught. *)
Definition process_one (env : Source) (src_base_dir tgt_base_dir ds_name : string)
  : M unit :=
  try_except
    (print ("Processing " +:+ ds_name) ;;;
     file_converter env src_base_dir tgt_base_dir ds_name)
    (fun e => match e with
              | Py.NameError _ =>
                  Some (emit (PrintedExn e) ;;;
                        print ("Error processing " +:+ ds_name))
              | _ => None
              end).

Definition process_files (env : Source) (environ : Environ)
    (ds_names : option (list string)) : M unit :=
  let src_base_dir := SRC_BASE_DIR environ in
  let tgt_base_dir := TGT_BASE_DIR environ in
  schemas <- json_load env (src_base_dir +:+ "/schemas.json") ;;
  let ds_names :=
    if falsy ds_names then Py.dict_keys schemas else default [] ds_names in
  for_each ds_names (process_one env src_base_dir tgt_base_dir).

End Converter.

(** ** file-to-db-loader/app.py *)

Module Loader.

Definition get_column_names (schemas : Schemas) (ds_name : string)
  : result (list string) :=
  match Py.dict_get schemas ds_name with
  | None => inl (Py.KeyError ds_name)
  | Some column_details =>
      let columns := Py.sorted column_position column_details in
      inr (map column_name columns)
  end.

Definition chunksize : nat := 10 * 1000.

Definition read_csv (env : Source) (file : string) (schemas : Schemas)
  : result (list DataFrame) :=
  let file_path_list := Py.re_split file in
  match Py.index_last2 file_path_list with
  | None => inl Py.IndexError
  | Some ds_name =>
      columns <~ get_column_names schemas ds_name ;;
      pd_read_csv_chunked env file columns chunksize
  end.

(** [df.to_sql(ds_name, db_conn_uri, if_exists='append', index=False)]:
    when the store takes the write, the rows go after those the table
    already holds, and a table that does not exist yet is created; when it
    does not, the call raises and nothing is written. *)
Definition to_sql (env : Source) (df : DataFrame) (db_conn_uri ds_name : string)
  : M unit :=
  fun w =>
    if db_accepts env ds_name (tables w !! ds_name) df
    then (inr tt,
          mkWorld (target_files w)
                  (<[ds_name := default [] (tables w !! ds_name) ++ [df]]>
                     (tables w))
                  (trace w))
    else (inl (Py.DatabaseError ds_name), w).

Definition db_loader (env : Source) (src_base_dir db_conn_uri ds_name : string)
  : M unit :=
  schemas <- json_load env (src_base_dir +:+ "/schemas.json") ;;
  let files := glob_part env (src_base_dir +:+ "/" +:+ ds_name) in
  match files with
  | [] => raise (Py.NameError ("No files found for " +:+ ds_name))
  | _ :: _ =>
      for_each files (fun file =>
        df_reader <- lift (read_csv env file schemas) ;;
        for_each (enumerate df_reader) (fun '(idx, df) =>
          print ("Populating chunk " +:+ pretty idx +:+ " of " +:+ ds_name) ;;;
          to_sql env df db_conn_uri ds_name))
  end.

Definition process_dataset (env : Source) (args : string * string * string)
  : M unit :=
  let '(src_base_dir, db_conn_uri, ds_name) := args in
  try_finally
    (try_except
       (print ("Processing " +:+ ds_name) ;;;
        db_loader env src_base_dir db_conn_uri ds_name)
       (fun e => match e with
                 | Py.NameError _ => Some (emit (PrintedExn e))
                 | _ => Some (emit (PrintedExn e))
                 end))
    (print ("Data Processing of " +:+ ds_name +:+ " is completed successfully")).

Definition process_files (env : Source) (environ : Environ)
    (ds_names : option (list string)) : M unit :=
  let src_base_dir := SRC_BASE_DIR environ in
  let db_conn_uri :=
    "postgresql://" +:+ DB_USER environ +:+ ":" +:+ DB_PASS environ +:+ "@"
    +:+ DB_HOST environ +:+ ":" +:+ DB_PORT environ +:+ "/" +:+ DB_NAME environ in
  schemas <- json_load env (src_base_dir +:+ "/schemas.json") ;;
  let ds_names :=
    if falsy ds_names then Py.dict_keys schemas else default [] ds_names in
  let pprocess := Nat.min (length ds_names) 8 in
  Pool pprocess ;;;
  let pd_args := map (fun ds_name => (src_base_dir, db_conn_uri, ds_name)) ds_names in
  pool_map (process_dataset env) pd_args.

End Loader.


(** ** Vocabulary of the properties *)

(** [ceil(r / b)] on naturals. *)
Definition ceil_div (r b : nat) : nat := (r + b - 1) / b.

(** The size a last batch has when [r] rows are cut in batches of [b]. *)
Definition last_batch_size (r b : nat) : nat :=
  if (r mod b =? 0)%nat then b else r mod b.

(** A string without slash or backslash: a single path segment. *)
Fixpoint no_sep (s : string) : bool :=
  match s with
  | EmptyString => true
  | String c rest => negb (Py.is_sep c) && no_sep rest
  end.

(** The line with which both dispatchers announce that they start the job
    of a dataset. *)
Definition job_start (ds_name : string) : event := Printed ("Processing " +:+ ds_name).

Definition is_job_start (ev : event) : bool :=
  match ev with
  | Printed line => Py.startswith "Processing " line
  | _ => false
  end.

(** The jobs a stretch of output shows as started, and the sizes of the
    pools it shows as created. *)
Definition started (evs : list event) : list event := List.filter is_job_start evs.

Definition pools (evs : list event) : list nat :=
  omap (λ ev, match ev with PoolCreated n => Some n | _ => None end) evs.

(** A computation keeps a relation between the world before and the
    world after, however it ends. *)
Definition preserves {A} (R : relation World) (c : M A) : Prop :=
  ∀ w : World, R w (c w).2.

(** What a dataset job of the loader may do to the world: print lines
    that neither announce a job nor a pool, leave the target files alone,
    and put frames after the frames a table already holds. *)
Definition loads (w w' : World) : Prop :=
  (∃ evs : list event,
     trace w' = trace w ++ evs ∧ started evs = [] ∧ pools evs = []) ∧
  target_files w' = target_files w ∧
  ∀ (t : string) (old : list DataFrame), tables w !! t = Some old →
    ∃ more : list DataFrame, tables w' !! t = Some (old ++ more).

(** ** A small source tree used to exercise the scripts

    [schemas.json] knows [orders] and [customers]; [orders] has one part
    file of two rows, [customers] has no files, and there is a directory
    [returns] with a part file for which the schema has no entry.  The
    database takes every write. *)
Module Example.

Definition schemas : Schemas :=
  [ ("orders", [mkColumn "id" 0; mkColumn "amount" 1]);
    ("customers", [mkColumn "name" 1; mkColumn "customer_id" 0]) ].

Definition rows : list Row := [ ["1"; "9.99"]; ["2"; "4.50"] ].

Definition accepts_all (table : string) (held : option (list DataFrame))
    (df : DataFrame) : bool := true.

Definition env : Source :=
  mkSource
    {[ "src/schemas.json" := schemas ]}
    {[ "src/orders/part-*" := ["src/orders/part-0000"];
       "src/returns/part-*" := ["src/returns/part-0000"] ]}
    {[ "src/orders/part-0000" := rows;
       "src/returns/part-0000" := [ ["7"; "1"] ] ]}
    accepts_all.

Definition environ : Environ :=
  mkEnviron "src" "tgt" "localhost" "5432" "retail" "loader" "secret".

Definition w0 : World := mkWorld ∅ ∅ [].

(** The same schema over a tree in which both datasets have a part file,
    but the one of [orders] cannot be read. *)
Definition env_unreadable : Source :=
  mkSource
    {[ "src/schemas.json" := schemas ]}
    {[ "src/orders/part-*" := ["src/orders/part-0000"];
       "src/customers/part-*" := ["src/customers/part-0000"] ]}
    {[ "src/customers/part-0000" := [ ["17"; "Ada"] ] ]}
    accepts_all.

(** A schema whose only dataset is named with a slash, and its tree. *)
Definition nested_schemas : Schemas :=
  [ ("retail/orders", [mkColumn "id" 0; mkColumn "amount" 1]) ].

Definition nested_env : Source :=
  mkSource
    {[ "src/schemas.json" := nested_schemas ]}
    {[ "src/retail/orders/part-*" := ["src/retail/orders/part-0000"] ]}
    {[ "src/retail/orders/part-0000" := rows ]}
    accepts_all.

(** A target tree in which the output file of [orders] exists already,
    written from a frame of one row. *)
Definition old_frame : DataFrame := mkDataFrame ["id"; "amount"] [ ["0"; "0.00"] ].

Definition w_old : World :=
  mkWorld {[ "tgt/orders/part-0000" := [old_frame] ]} ∅ [].

(** A source tree whose [orders] file has one row more than a batch. *)
Definition long_rows : list Row := replicate (S Loader.chunksize) ["1"; "9.99"].

Definition long_env : Source :=
  mkSource
    {[ "src/schemas.json" := schemas ]}
    {[ "src/orders/part-*" := ["src/orders/part-0000"] ]}
    {[ "src/orders/part-0000" := long_rows ]}
    accepts_all.

End Example.

(** ** Vocabulary of the properties of whole jobs *)

(** The path [src/ds_name/name] of a part file. *)
Definition part_path (src ds_name name : string) : string :=
  (src +:+ "/" +:+ ds_name) +:+ "/" +:+ name.

(** For the pattern of the dataset, [glob.glob] returns the paths
    [src/ds_name/name] of the names [names], in that order. *)
Definition lists_parts (env : Source) (src ds_name : string)
    (names : list string) : Prop :=
  glob_part env (src +:+ "/" +:+ ds_name) = map (part_path src ds_name) names.

(** The rows that a path holds (none for a path that cannot be read). *)
Definition rows_at (env : Source) (file : string) : list Row :=
  default [] (csv_rows env !! file).

(** The column names the schema gives for a list of column definitions. *)
Definition names_of (column_details : list Column) : list string :=
  map column_name (Py.sorted column_position column_details).

(** Every name is a single path segment and names a part file that can
    be read. *)
Definition readable (env : Source) (src ds_name : string)
    (names : list string) : Prop :=
  Forall (λ name, no_sep name = true ∧
                  is_Some (csv_rows env !! part_path src ds_name name)) names.

(** The database takes every write to the table. *)
Definition takes_all (env : Source) (table : string) : Prop :=
  ∀ (held : option (list DataFrame)) (df : DataFrame),
    db_accepts env table held df = true.

(** The frame the converter reads from a part file, and the frames the
    loader reads from it. *)
Definition whole_frame (env : Source) (columns : list string) (file : string)
  : DataFrame :=
  mkDataFrame columns (rows_at env file).

Definition batch_frames (env : Source) (columns : list string) (file : string)
  : list DataFrame :=
  map (mkDataFrame columns) (iter_chunks Loader.chunksize (rows_at env file)).

(** The target files after the converter has written, for each of
    [names] in turn, the frame of [src/ds_name/name] to
    [tgt/ds_name/name]. *)
Definition converted (env : Source) (src tgt ds_name : string)
    (columns : list string) (names : list string)
    (files : gmap string (list DataFrame)) : gmap string (list DataFrame) :=
  foldl (λ m name,
           <[tgt +:+ "/" +:+ ds_name +:+ "/" +:+ name
             := [whole_frame env columns (part_path src ds_name name)]]> m)
        files names.

Definition converted_world (env : Source) (src tgt ds_name : string)
    (columns : list string) (names : list string) (w : World) : World :=
  mkWorld (converted env src tgt ds_name columns names (target_files w))
          (tables w) (trace w).

(** The line the loader prints before it writes batch [idx]. *)
Definition chunk_line (ds_name : string) (idx : nat) : event :=
  Printed ("Populating chunk " +:+ pretty idx +:+ " of " +:+ ds_name).

(** The lines the loader prints for one file: one per batch, numbered
    from 0. *)
Definition chunk_lines (env : Source) (ds_name file : string) : list event :=
  map (chunk_line ds_name)
      (seq 0 (length (iter_chunks Loader.chunksize (rows_at env file)))).

(** The world after the loader has gone through [names], every write
    taken: the batches of the files, in order, after what the table held,
    and one line per batch.  With no file gone through nothing has
    happened. *)
Definition loaded_world (env : Source) (src ds_name : string)
    (columns : list string) (names : list string) (w : World) : World :=
  match names with
  | [] => w
  | _ :: _ =>
      mkWorld (target_files w)
        (<[ds_name :=
             default [] (tables w !! ds_name)
             ++ concat (map (λ name, batch_frames env columns
                               (part_path src ds_name name)) names)]>
           (tables w))
        (trace w
         ++ concat (map (λ name, chunk_lines env ds_name
                           (part_path src ds_name name)) names))
  end.

(** What a job of the converter for [prefix = tgt/ds_name/] may do to the
    world: write files whose path starts with [prefix], nothing else. *)
Definition writes_under (prefix : string) (w w' : World) : Prop :=
  tables w' = tables w ∧ trace w' = trace w ∧
  ∀ p : string, Py.startswith prefix p = false →
    target_files w' !! p = target_files w !! p.

(** What the loader's jobs for [ds_names] may do to the stores: change
    the tables named in [ds_names], nothing else. *)
Definition touches_only (ds_names : list string) (w w' : World) : Prop :=
  target_files w' = target_files w ∧
  ∀ t : string, t ∉ ds_names → tables w' !! t = tables w !! t.

(** The line that ends every job of the loader's worker. *)
Definition done_line (ds_name : string) : event :=
  Printed ("Data Processing of " +:+ ds_name +:+ " is completed successfully").

(** ** More source trees *)
Module Example2.

(** [orders] with two part files. *)
Definition env_two : Source :=
  mkSource
    {[ "src/schemas.json" := Example.schemas ]}
    {[ "src/orders/part-*" := ["src/orders/part-0000"; "src/orders/part-0001"] ]}
    {[ "src/orders/part-0000" := Example.rows;
       "src/orders/part-0001" := [ ["3"; "12.00"] ] ]}
    Example.accepts_all.

(** The same tree with the part files found the other way round. *)
Definition env_two_reversed : Source :=
  mkSource
    {[ "src/schemas.json" := Example.schemas ]}
    {[ "src/orders/part-*" := ["src/orders/part-0001"; "src/orders/part-0000"] ]}
    {[ "src/orders/part-0000" := Example.rows;
       "src/orders/part-0001" := [ ["3"; "12.00"] ] ]}
    Example.accepts_all.

(** [orders] with three part files, the second of which cannot be read. *)
Definition env_broken : Source :=
  mkSource
    {[ "src/schemas.json" := Example.schemas ]}
    {[ "src/orders/part-*" :=
         ["src/orders/part-0000"; "src/orders/part-0001"; "src/orders/part-0002"] ]}
    {[ "src/orders/part-0000" := Example.rows;
       "src/orders/part-0002" := [ ["3"; "12.00"] ] ]}
    Example.accepts_all.

(** A tree without [schemas.json]. *)
Definition env_no_schema : Source := mkSource ∅ ∅ ∅ Example.accepts_all.

(** The schema of [Example] with the columns of [customers] written in
    the other order. *)
Definition schemas_reordered : Schemas :=
  [ ("orders", [mkColumn "id" 0; mkColumn "amount" 1]);
    ("customers", [mkColumn "customer_id" 0; mkColumn "name" 1]) ].

End Example2.

(** * Properties *)

(** ** Dictionaries *)

Section DictFacts.
Context {V : Type}.
Implicit Types (d : Py.dict V) (k : string) (v : V).

Lemma dict_get_None d k : Py.dict_get d k = None ↔ k ∉ Py.dict_keys d.
Proof.
  induction d as [|[k' v'] d IH]; simpl.
  - split; [intros _; apply not_elem_of_nil | done].
  - destruct (String.eqb_spec k' k) as [->|Hne].
    + split; [done | intros H; exfalso; apply H; left].
    + rewrite IH, not_elem_of_cons. split; [intros ?; split; [congruence | done] | intros [_ ?]; done].
Qed.

Lemma dict_get_Some_key d k v : Py.dict_get d k = Some v → k ∈ Py.dict_keys d.
Proof.
  intros H. destruct (decide (k ∈ Py.dict_keys d)) as [|Hn]; [done|].
  apply dict_get_None in Hn. congruence.
Qed.

Lemma dict_keys_set d k v :
  Py.dict_keys (Py.dict_set d k v)
  = if decide (k ∈ Py.dict_keys d) then Py.dict_keys d else Py.dict_keys d ++ [k].
Proof.
  induction d as [|[k' v'] d IH]; simpl.
  - done.
  - destruct (String.eqb_spec k' k) as [->|Hne]; simpl.
    + rewrite decide_True by left. done.
    + unfold Py.dict_keys in *. rewrite IH.
      destruct (decide (k ∈ map fst d)) as [Hin|Hin].
      * rewrite decide_True by (right; done). done.
      * rewrite decide_False; [done|].
        rewrite not_elem_of_cons. split; [congruence | done].
Qed.

Lemma dict_set_NoDup d k v :
  NoDup (Py.dict_keys d) → NoDup (Py.dict_keys (Py.dict_set d k v)).
Proof.
  intros Hnd. rewrite dict_keys_set.
  destruct (decide (k ∈ Py.dict_keys d)) as [|Hn]; [done|].
  apply NoDup_app. split; [done|]. split.
  - intros x Hx Hk. apply list_elem_of_singleton in Hk. subst. done.
  - apply NoDup_singleton.
Qed.

(** A parsed JSON object has one binding per key, and its keys are the
    member names of the document. *)
Lemma dict_of_members_aux (members : list (string * V)) d :
  NoDup (Py.dict_keys d) →
  let d' := fold_left (fun d kv => Py.dict_set d (fst kv) (snd kv)) members d in
  NoDup (Py.dict_keys d') ∧
  ∀ k, k ∈ Py.dict_keys d' ↔ k ∈ Py.dict_keys d ∨ k ∈ map fst members.
Proof.
  revert d. induction members as [|[k v] ms IH]; intros d Hnd; simpl.
  - split; [done|]. intros k. rewrite elem_of_nil. tauto.
  - destruct (IH (Py.dict_set d k v) (dict_set_NoDup d k v Hnd)) as [H1 H2].
    split; [done|]. intros k0. rewrite H2, dict_keys_set, elem_of_cons.
    destruct (decide (k ∈ Py.dict_keys d)) as [Hin|Hin].
    + split; [tauto|]. intros [?|[->|?]]; auto.
    + rewrite elem_of_app, list_elem_of_singleton. tauto.
Qed.

Lemma dict_of_members_NoDup (members : list (string * V)) :
  NoDup (Py.dict_keys (Py.dict_of_members members)).
Proof. apply (dict_of_members_aux members []). apply NoDup_nil_2. Qed.

Lemma dict_of_members_keys (members : list (string * V)) k :
  k ∈ Py.dict_keys (Py.dict_of_members members) ↔ k ∈ map fst members.
Proof.
  destruct (dict_of_members_aux members [] (NoDup_nil_2)) as [_ H].
  unfold Py.dict_of_members. rewrite H. simpl. rewrite elem_of_nil. tauto.
Qed.
End DictFacts.

(** ** [sorted] is an ascending, stable rearrangement *)

Section SortedFacts.
Context {A : Type} (key : A → Z).
Implicit Types (x : A) (l : list A).

Local Abbreviation key_le := (λ a b : A, (key a ≤ key b)%Z).

Lemma insert_sorted_perm x l : Py.insert_sorted key x l ≡ₚ x :: l.
Proof.
  induction l as [|y l IH]; simpl; [done|].
  destruct (key x <=? key y)%Z; [done|].
  rewrite IH. apply Permutation_swap.
Qed.

Lemma sorted_perm l : Py.sorted key l ≡ₚ l.
Proof.
  induction l as [|x l IH]; simpl; [done|].
  rewrite insert_sorted_perm. by rewrite IH.
Qed.

Lemma insert_sorted_ascending x l :
  StronglySorted key_le l → StronglySorted key_le (Py.insert_sorted key x l).
Proof.
  induction l as [|y l IH]; intros Hs; simpl.
  - repeat constructor.
  - apply StronglySorted_inv in Hs as [Hs Hy].
    destruct (Z.leb_spec (key x) (key y)) as [Hle|Hgt].
    + constructor; [by constructor|].
      constructor; [done|].
      eapply Forall_impl; [exact Hy|]. simpl. intros; lia.
    + constructor; [by apply IH|].
      rewrite insert_sorted_perm. constructor; [lia | done].
Qed.

Lemma sorted_ascending l : StronglySorted key_le (Py.sorted key l).
Proof.
  induction l as [|x l IH]; simpl; [constructor|].
  by apply insert_sorted_ascending.
Qed.

(** Stability: among the elements with one and the same key, the order
    of the input is kept. *)
Lemma insert_sorted_stable (p : Z) x l :
  filter (λ a, key a = p) (Py.insert_sorted key x l)
  = filter (λ a, key a = p) (x :: l).
Proof.
  induction l as [|y l IH]; simpl; [done|].
  destruct (Z.leb_spec (key x) (key y)) as [Hle|Hgt]; [done|].
  rewrite filter_cons, IH, !filter_cons.
  destruct (decide (key y = p)), (decide (key x = p)); try done. lia.
Qed.

Lemma sorted_stable (p : Z) l :
  filter (λ a, key a = p) (Py.sorted key l) = filter (λ a, key a = p) l.
Proof.
  induction l as [|x l IH]; simpl; [done|].
  rewrite insert_sorted_stable, !filter_cons, IH. done.
Qed.
End SortedFacts.

(** ** Column resolution *)

(** C4. For a dataset present in the schema, both scripts' column-name
    resolution returns the names of the dataset's columns rearranged in
    ascending order of [column_position]; columns with one and the same
    position keep the order they have in the schema document (the sort is
    stable), and a result exists for every column list (it is total). *)
Theorem get_column_names_sorted (schemas : Schemas) (ds_name : string)
    (column_details : list Column) :
  Py.dict_get schemas ds_name = Some column_details →
  ∃ columns : list Column,
    Converter.get_column_names schemas ds_name = inr (map column_name columns) ∧
    Loader.get_column_names schemas ds_name = inr (map column_name columns) ∧
    columns ≡ₚ column_details ∧
    StronglySorted (λ a b, (column_position a ≤ column_position b)%Z) columns ∧
    ∀ p : Z, filter (λ c, column_position c = p) columns
             = filter (λ c, column_position c = p) column_details.
Proof.
  intros Hget. exists (Py.sorted column_position column_details).
  unfold Converter.get_column_names, Loader.get_column_names. rewrite Hget.
  repeat split.
  - apply sorted_perm.
  - apply (sorted_ascending column_position).
  - intros p. apply sorted_stable.
Qed.

(** C7. For a dataset name that is not a key of the schema document,
    column resolution raises [KeyError] on that name (the script's
    unknown-dataset failure) in both scripts; no column list is returned. *)
Theorem get_column_names_unknown (schemas : Schemas) (ds_name : string) :
  ds_name ∉ Py.dict_keys schemas →
  Converter.get_column_names schemas ds_name = inl (Py.KeyError ds_name) ∧
  Loader.get_column_names schemas ds_name = inl (Py.KeyError ds_name).
Proof.
  intros Habs. apply dict_get_None in Habs.
  unfold Converter.get_column_names, Loader.get_column_names.
  by rewrite Habs.
Qed.

(** ** Reading in batches *)

Section ChunkFacts.
Context {A : Type}.
Implicit Types (l : list A) (n fuel : nat).

Lemma chunks_fuel_enough fuel fuel' n l :
  0 < n → length l ≤ fuel → length l ≤ fuel' →
  chunks_fuel fuel n l = chunks_fuel fuel' n l.
Proof.
  intros Hn. revert fuel' l.
  induction fuel as [|fuel IH]; intros fuel' l H1 H2.
  - destruct l; [|simpl in H1; lia]. by destruct fuel'.
  - destruct l as [|x l]; [by destruct fuel'|].
    destruct fuel' as [|fuel']; [simpl in H2; lia|].
    simpl. f_equal. apply IH.
    + rewrite length_drop. simpl in *. lia.
    + rewrite length_drop. simpl in *. lia.
Qed.

Lemma chunks_nil n : chunks n (@nil A) = [].
Proof. done. Qed.

(** The equation that [chunks] obeys: cut off the first [n] rows, go on
    with the rest. *)
Lemma chunks_step n l :
  0 < n → l ≠ [] → chunks n l = take n l :: chunks n (drop n l).
Proof.
  intros Hn Hl. unfold chunks. destruct l as [|x l]; [done|].
  change (length (x :: l)) with (S (length l)). cbn [chunks_fuel].
  f_equal. apply chunks_fuel_enough; [done| |done].
  rewrite length_drop. simpl. lia.
Qed.

Lemma concat_chunks n l : 0 < n → concat (chunks n l) = l.
Proof.
  intros Hn. remember (length l) as r eqn:Hr. revert l Hr.
  induction r as [r IH] using lt_wf_ind. intros l ->.
  destruct (decide (l = [])) as [->|Hl]; [done|].
  rewrite chunks_step by done. simpl.
  rewrite (IH (length (drop n l))); [apply take_drop| |done].
  rewrite length_drop. destruct l; [done|simpl; lia].
Qed.

Lemma ceil_div_small r n : 0 < r → r ≤ n → ceil_div r n = 1.
Proof.
  intros Hr Hn. unfold ceil_div.
  symmetry. apply (Nat.div_unique _ _ _ (r - 1)); lia.
Qed.

Lemma ceil_div_step r n : 0 < n → n < r → ceil_div r n = S (ceil_div (r - n) n).
Proof.
  intros Hn Hr. unfold ceil_div.
  replace (r + n - 1) with ((r - n + n - 1) + 1 * n) by lia.
  rewrite Nat.div_add by lia. lia.
Qed.

Lemma last_batch_size_small r n : 0 < r → r ≤ n → last_batch_size r n = r.
Proof.
  intros Hr Hn. unfold last_batch_size.
  destruct (decide (r = n)) as [->|Hne].
  - rewrite Nat.Div0.mod_same. done.
  - rewrite Nat.mod_small by lia.
    destruct (Nat.eqb_spec r 0); [lia|done].
Qed.

Lemma last_batch_size_step r n :
  0 < n → n < r → last_batch_size r n = last_batch_size (r - n) n.
Proof.
  intros Hn Hr. unfold last_batch_size.
  assert (r mod n = (r - n) mod n) as ->; [|done].
  replace r with ((r - n) + 1 * n) at 1 by lia.
  apply Nat.Div0.mod_add.
Qed.

Lemma length_chunks n l : 0 < n → length (chunks n l) = ceil_div (length l) n.
Proof.
  intros Hn. remember (length l) as r eqn:Hr. revert l Hr.
  induction r as [r IH] using lt_wf_ind. intros l ->.
  destruct (decide (l = [])) as [->|Hl].
  - simpl. unfold ceil_div. symmetry. apply Nat.div_small. lia.
  - assert (0 < length l) by (destruct l; [done|simpl; lia]).
    rewrite chunks_step by done. simpl.
    destruct (decide (length l ≤ n)) as [Hle|Hgt].
    + rewrite drop_ge by done. rewrite chunks_nil. simpl.
      by rewrite ceil_div_small.
    + rewrite (IH (length (drop n l))); [| rewrite length_drop; lia | done].
      rewrite length_drop. rewrite (ceil_div_step (length l)) by lia. done.
Qed.

(** Every batch but the last is full; the last holds what is left. *)
Lemma chunks_sizes n l i c :
  0 < n → chunks n l !! i = Some c →
  length c = if decide (S i < length (chunks n l)) then n
             else last_batch_size (length l) n.
Proof.
  intros Hn. remember (length l) as r eqn:Hr. revert l Hr i c.
  induction r as [r IH] using lt_wf_ind. intros l -> i c Hi.
  destruct (decide (l = [])) as [->|Hl]; [done|].
  assert (0 < length l) by (destruct l; [done|simpl; lia]).
  rewrite chunks_step in * by done.
  destruct (decide (length l ≤ n)) as [Hle|Hgt].
  - rewrite drop_ge in * by done. rewrite chunks_nil in *.
    destruct i as [|i]; [|done]. simpl in Hi. injection Hi as <-.
    rewrite decide_False by (simpl; lia).
    rewrite take_ge by done. by rewrite last_batch_size_small.
  - assert (Hrest : 0 < length (chunks n (drop n l))).
    { rewrite length_chunks, length_drop by done.
      destruct (decide (length l - n ≤ n)).
      - rewrite ceil_div_small; lia.
      - rewrite ceil_div_step; lia. }
    destruct i as [|i]; simpl in Hi.
    + injection Hi as <-. rewrite decide_True by (simpl; lia).
      rewrite length_take. lia.
    + rewrite (IH (length (drop n l)) ltac:(rewrite length_drop; lia)
                 (drop n l) eq_refl i c Hi).
      rewrite length_drop, (last_batch_size_step (length l)) by lia.
      simpl. destruct (decide (S i < length (chunks n (drop n l))));
        [rewrite decide_True by lia | rewrite decide_False by lia]; done.
Qed.
End ChunkFacts.

Lemma iter_chunks_nonempty n (rows : list Row) :
  rows ≠ [] → iter_chunks n rows = chunks n rows.
Proof. by destruct rows. Qed.

Lemma concat_iter_chunks n (rows : list Row) :
  0 < n → concat (iter_chunks n rows) = rows.
Proof.
  intros Hn. destruct rows as [|r rows]; [done|].
  rewrite iter_chunks_nonempty by done. by apply concat_chunks.
Qed.

Lemma chunksize_pos : 0 < Loader.chunksize.
Proof. unfold Loader.chunksize. lia. Qed.

(** ** Paths *)

Lemma re_split_nonempty s : Py.re_split s ≠ [].
Proof.
  destruct s as [|c s]; simpl; [done|].
  destruct (Py.is_sep c); [done|]. by destruct (Py.re_split s).
Qed.

Lemma re_split_no_sep s : no_sep s = true → Py.re_split s = [s].
Proof.
  induction s as [|c s IH]; simpl; [done|].
  intros [Hc Hs]%andb_prop. apply negb_true_iff in Hc. rewrite Hc.
  by rewrite IH.
Qed.

Lemma re_split_at_sep a c b :
  Py.is_sep c = true →
  Py.re_split (a +:+ String c b) = Py.re_split a ++ Py.re_split b.
Proof.
  intros Hc. induction a as [|x a IH]; simpl.
  - by rewrite Hc.
  - destruct (Py.is_sep x); [by rewrite IH|].
    rewrite IH. pose proof (re_split_nonempty a).
    by destruct (Py.re_split a).
Qed.

Lemma index_last2_app {A} (l : list A) a b : Py.index_last2 (l ++ [a; b]) = Some a.
Proof. unfold Py.index_last2. by rewrite rev_app_distr. Qed.

Lemma index_last_app {A} (l : list A) a b : Py.index_last (l ++ [a; b]) = Some b.
Proof.
  unfold Py.index_last.
  replace (l ++ [a; b]) with ((l ++ [a]) ++ [b]) by by rewrite <- app_assoc.
  apply last_snoc.
Qed.

(** The segments of [dir/parent/name]. *)
Lemma re_split_joined dir parent name :
  no_sep parent = true → no_sep name = true →
  Py.re_split (dir +:+ "/" +:+ parent +:+ "/" +:+ name)
  = Py.re_split dir ++ [parent; name].
Proof.
  intros Hp Hn.
  change ("/" +:+ parent +:+ "/" +:+ name)
    with (String "/"%char (parent +:+ String "/"%char name)).
  rewrite !re_split_at_sep by done.
  by rewrite (re_split_no_sep parent), (re_split_no_sep name).
Qed.

Lemma parent_of_joined dir parent name :
  no_sep parent = true → no_sep name = true →
  Py.index_last2 (Py.re_split (dir +:+ "/" +:+ parent +:+ "/" +:+ name))
  = Some parent.
Proof. intros. rewrite re_split_joined by done. apply index_last2_app. Qed.

(** C3 (as amended). The loader reads a file in batches of the fixed
    size 10000; the converter reads it in one piece.  Reading with batch
    size [B > 0] keeps the rows and their order for every file and, for a
    file of [R >= 1] rows, gives exactly [ceil(R/B)] batches, each of [B]
    rows except possibly the last, which has [R mod B] rows, or [B] when
    [R mod B = 0]; the loader's reader is that reading at [B = 10000]; the
    converter's reader returns one frame holding all [R] rows in order. *)
Theorem read_csv_batches (env : Source) (file : string) (schemas : Schemas)
    (parent : string) (column_details : list Column) (rows : list Row) :
  Py.index_last2 (Py.re_split file) = Some parent →
  Py.dict_get schemas parent = Some column_details →
  csv_rows env !! file = Some rows →
  let names := map column_name (Py.sorted column_position column_details) in
  (∀ B : nat, 0 < B →
     ∃ frames : list DataFrame,
       pd_read_csv_chunked env file names B = inr frames ∧
       Forall (λ df, df_columns df = names) frames ∧
       concat (map df_rows frames) = rows ∧
       (rows ≠ [] →
        length frames = ceil_div (length rows) B ∧
        ∀ (i : nat) (df : DataFrame), frames !! i = Some df →
          length (df_rows df)
          = if decide (S i < length frames) then B
            else last_batch_size (length rows) B)) ∧
  Z.of_nat Loader.chunksize = 10000%Z ∧
  Loader.read_csv env file schemas
  = pd_read_csv_chunked env file names Loader.chunksize ∧
  Converter.read_csv env file schemas = inr (mkDataFrame names rows).
Proof.
  intros Hparent Hcols Hrows names. split; [|split; [|split]].
  - intros B HB. unfold pd_read_csv_chunked. rewrite Hrows.
    eexists. split; [done|]. split; [|split].
    + apply Forall_map. by apply Forall_true.
    + rewrite map_map. simpl. rewrite map_id. by apply concat_iter_chunks.
    + intros Hne. rewrite iter_chunks_nonempty by done.
      rewrite length_map. split; [by apply length_chunks|].
      intros i df Hi. apply list_lookup_fmap_Some in Hi as (c & -> & Hc).
      simpl. by apply chunks_sizes.
  - by vm_compute.
  - unfold Loader.read_csv. rewrite Hparent.
    unfold Loader.get_column_names. by rewrite Hcols.
  - unfold Converter.read_csv. rewrite Hparent.
    unfold Converter.get_column_names. rewrite Hcols. simpl.
    unfold pd_read_csv. by rewrite Hrows.
Qed.

(** C10. The reader takes the dataset whose columns it resolves from the
    file's path alone: for a file [dir/parent/name] it is [parent], the
    second-to-last segment, whatever dataset the job was started for; when
    [parent] is not a key of the schema the read fails with [KeyError] on
    [parent], and a job whose first listed file is such a file fails with
    it, also when the job's own dataset name is a key of the schema. *)
Theorem read_csv_resolves_parent_dir (env : Source) (schemas : Schemas)
    (dir parent name : string) :
  no_sep parent = true → no_sep name = true →
  let file := dir +:+ "/" +:+ parent +:+ "/" +:+ name in
  Converter.read_csv env file schemas
  = (columns <~ Converter.get_column_names schemas parent ;;
     pd_read_csv env file columns) ∧
  Loader.read_csv env file schemas
  = (columns <~ Loader.get_column_names schemas parent ;;
     pd_read_csv_chunked env file columns Loader.chunksize) ∧
  (parent ∉ Py.dict_keys schemas →
   Converter.read_csv env file schemas = inl (Py.KeyError parent) ∧
   Loader.read_csv env file schemas = inl (Py.KeyError parent) ∧
   ∀ (src tgt uri ds_name : string) (rest : list string) (w : World),
     json_docs env !! (src +:+ "/schemas.json") = Some schemas →
     glob_part env (src +:+ "/" +:+ ds_name) = file :: rest →
     Converter.file_converter env src tgt ds_name w = (inl (Py.KeyError parent), w) ∧
     Loader.db_loader env src uri ds_name w = (inl (Py.KeyError parent), w)).
Proof.
  intros Hp Hn file.
  assert (Hseg : Py.index_last2 (Py.re_split file) = Some parent)
    by by apply parent_of_joined.
  assert (HC : Converter.read_csv env file schemas
               = (columns <~ Converter.get_column_names schemas parent ;;
                  pd_read_csv env file columns))
    by (unfold Converter.read_csv; by rewrite Hseg).
  assert (HL : Loader.read_csv env file schemas
               = (columns <~ Loader.get_column_names schemas parent ;;
                  pd_read_csv_chunked env file columns Loader.chunksize))
    by (unfold Loader.read_csv; by rewrite Hseg).
  split; [done|]. split; [done|].
  intros Habs. destruct (get_column_names_unknown schemas parent Habs) as [H1 H2].
  rewrite HC, HL, H1, H2. split; [done|]. split; [done|].
  intros src tgt uri ds_name rest w Hdoc Hglob. split.
  - unfold Converter.file_converter, bind, json_load. rewrite Hdoc. simpl.
    rewrite Hglob. simpl. unfold bind, lift. by rewrite HC, H1.
  - unfold Loader.db_loader, bind, json_load. rewrite Hdoc. simpl.
    rewrite Hglob. simpl. unfold bind, lift. by rewrite HL, H2.
Qed.

(** ** A dataset without part files *)

Lemma file_converter_no_files (env : Source) (src tgt ds_name : string) (w : World) :
  glob_part env (src +:+ "/" +:+ ds_name) = [] →
  Converter.file_converter env src tgt ds_name w
  = match json_docs env !! (src +:+ "/schemas.json") with
    | Some _ => (inl (Py.NameError ("file not found " +:+ ds_name)), w)
    | None => (inl (Py.OSError (src +:+ "/schemas.json")), w)
    end.
Proof.
  intros Hnone. unfold Converter.file_converter, bind, json_load.
  destruct (json_docs env !! (src +:+ "/schemas.json")); [|done].
  cbn [ret]. by rewrite Hnone.
Qed.

Lemma db_loader_no_files (env : Source) (src uri ds_name : string) (w : World) :
  glob_part env (src +:+ "/" +:+ ds_name) = [] →
  Loader.db_loader env src uri ds_name w
  = match json_docs env !! (src +:+ "/schemas.json") with
    | Some _ => (inl (Py.NameError ("No files found for " +:+ ds_name)), w)
    | None => (inl (Py.OSError (src +:+ "/schemas.json")), w)
    end.
Proof.
  intros Hnone. unfold Loader.db_loader, bind, json_load.
  destruct (json_docs env !! (src +:+ "/schemas.json")); [|done].
  cbn [ret]. by rewrite Hnone.
Qed.

(** The converter's loop body on a dataset without part files: three
    lines are printed and the loop goes on. *)
Lemma process_one_no_files (env : Source) (schemas : Schemas)
    (src tgt ds_name : string) (w : World) :
  json_docs env !! (src +:+ "/schemas.json") = Some schemas →
  glob_part env (src +:+ "/" +:+ ds_name) = [] →
  Converter.process_one env src tgt ds_name w
  = (inr tt,
     mkWorld (target_files w) (tables w)
       (trace w ++
        [ job_start ds_name;
          PrintedExn (Py.NameError ("file not found " +:+ ds_name));
          Printed ("Error processing " +:+ ds_name) ])).
Proof.
  intros Hdoc Hnone.
  unfold Converter.process_one, try_except, bind, print, emit.
  rewrite file_converter_no_files, Hdoc by done. simpl.
  by rewrite <- !app_assoc.
Qed.

(** C5. When nothing matches the part-file pattern of a dataset
    ([glob.glob] on [src/ds_name/part-*] returns no path), the dataset job
    of either script ends by raising an exception and leaves the world
    exactly as it found it: no file written, no table touched.  With the
    schema document readable (as it is when a dispatcher has started the
    job) the exception is [NameError], the not-found outcome; the
    dispatchers report it and go on, and all they add is printed output. *)
Theorem no_part_files_not_found (env : Source) (src tgt uri ds_name : string)
    (w : World) :
  glob_part env (src +:+ "/" +:+ ds_name) = [] →
  (∃ e : Py.exn, Converter.file_converter env src tgt ds_name w = (inl e, w)) ∧
  (∃ e : Py.exn, Loader.db_loader env src uri ds_name w = (inl e, w)) ∧
  ∀ schemas : Schemas,
    json_docs env !! (src +:+ "/schemas.json") = Some schemas →
    Converter.file_converter env src tgt ds_name w
    = (inl (Py.NameError ("file not found " +:+ ds_name)), w) ∧
    Loader.db_loader env src uri ds_name w
    = (inl (Py.NameError ("No files found for " +:+ ds_name)), w) ∧
    (∃ w' : World,
       Converter.process_one env src tgt ds_name w = (inr tt, w') ∧
       target_files w' = target_files w ∧ tables w' = tables w ∧
       trace w' = trace w ++
         [ job_start ds_name;
           PrintedExn (Py.NameError ("file not found " +:+ ds_name));
           Printed ("Error processing " +:+ ds_name) ]) ∧
    (∃ w' : World,
       Loader.process_dataset env (src, uri, ds_name) w = (inr tt, w') ∧
       target_files w' = target_files w ∧ tables w' = tables w ∧
       trace w' = trace w ++
         [ job_start ds_name;
           PrintedExn (Py.NameError ("No files found for " +:+ ds_name));
           Printed ("Data Processing of " +:+ ds_name +:+ " is completed successfully") ]).
Proof.
  intros Hnone.
  split; [|split].
  - rewrite file_converter_no_files by done.
    destruct (json_docs env !! (src +:+ "/schemas.json")); eauto.
  - rewrite db_loader_no_files by done.
    destruct (json_docs env !! (src +:+ "/schemas.json")); eauto.
  - intros schemas Hdoc.
    rewrite file_converter_no_files, db_loader_no_files, Hdoc by done.
    split; [done|]. split; [done|]. split.
    + eexists. split; [by eapply process_one_no_files|]. done.
    + eexists. split.
      * unfold Loader.process_dataset, try_finally, try_except, bind, print, emit.
        rewrite db_loader_no_files, Hdoc by done. reflexivity.
      * simpl. repeat split. by rewrite <- !app_assoc.
Qed.

(** ** The converter's loop and the exceptions of a job *)

(** A dataset without part files does not stop the converter's
    dispatcher: the loop goes on with the names that follow. *)
Lemma converter_not_found_goes_on (env : Source) (environ : Environ)
    (schemas : Schemas) (ds_name : string) (rest : list string) (w : World) :
  json_docs env !! (SRC_BASE_DIR environ +:+ "/schemas.json") = Some schemas →
  glob_part env (SRC_BASE_DIR environ +:+ "/" +:+ ds_name) = [] →
  ∃ w1 : World,
    Converter.process_one env (SRC_BASE_DIR environ) (TGT_BASE_DIR environ)
      ds_name w = (inr tt, w1) ∧
    target_files w1 = target_files w ∧
    Converter.process_files env environ (Some (ds_name :: rest)) w
    = for_each rest
        (Converter.process_one env (SRC_BASE_DIR environ) (TGT_BASE_DIR environ)) w1.
Proof.
  intros Hdoc Hnone. eexists. split; [by eapply process_one_no_files|].
  split; [done|].
  unfold Converter.process_files. unfold bind at 1. unfold json_load.
  rewrite Hdoc. cbn [ret falsy default from_option id for_each]. unfold bind at 1.
  by erewrite process_one_no_files.
Qed.

(** Any other exception of a job does: it leaves the loop and the
    dispatcher, and the names that follow are never started. *)
Lemma converter_other_failure_stops (env : Source) (environ : Environ)
    (schemas : Schemas) (ds_name : string) (rest : list string)
    (e : Py.exn) (w w' : World) :
  json_docs env !! (SRC_BASE_DIR environ +:+ "/schemas.json") = Some schemas →
  Converter.file_converter env (SRC_BASE_DIR environ) (TGT_BASE_DIR environ) ds_name
    (mkWorld (target_files w) (tables w) (trace w ++ [job_start ds_name]))
  = (inl e, w') →
  Py.is_NameError e = false →
  Converter.process_files env environ (Some (ds_name :: rest)) w = (inl e, w').
Proof.
  intros Hdoc Hjob He.
  unfold Converter.process_files. unfold bind at 1. unfold json_load.
  rewrite Hdoc. cbn [ret falsy default from_option id for_each]. unfold bind at 1.
  unfold Converter.process_one, try_except. unfold bind at 1.
  unfold print, emit. unfold job_start in Hjob. rewrite Hjob.
  by destruct e.
Qed.

(** ** What a run keeps *)

Section Preserves.
Context (R : relation World) `{!PreOrder R}.

Lemma preserves_ret {A} (x : A) : preserves R (ret x).
Proof. intros w. simpl. reflexivity. Qed.

Lemma preserves_raise {A} (e : Py.exn) : preserves R (@raise A e).
Proof. intros w. simpl. reflexivity. Qed.

Lemma preserves_lift {A} (r : result A) : preserves R (lift r).
Proof. intros w. simpl. reflexivity. Qed.

Lemma preserves_bind {A B} (c : M A) (k : A → M B) :
  preserves R c → (∀ x, preserves R (k x)) → preserves R (bind c k).
Proof.
  intros Hc Hk w. unfold bind. specialize (Hc w).
  destruct (c w) as [[e|x] w1]; simpl in *; [done|].
  etrans; [exact Hc | apply Hk].
Qed.

Lemma preserves_for_each {A} (l : list A) (body : A → M unit) :
  (∀ x, preserves R (body x)) → preserves R (for_each l body).
Proof.
  intros Hb. induction l as [|x l IH]; simpl.
  - apply preserves_ret.
  - apply preserves_bind; [apply Hb | intros _; apply IH].
Qed.

Lemma preserves_json_load env path : preserves R (json_load env path).
Proof.
  unfold json_load. destruct (json_docs env !! path);
    [apply preserves_ret | apply preserves_raise].
Qed.
End Preserves.

Lemma started_app evs1 evs2 : started (evs1 ++ evs2) = started evs1 ++ started evs2.
Proof. unfold started. induction evs1 as [|ev evs1 IH]; simpl; [done|].
  destruct (is_job_start ev); simpl; by rewrite IH. Qed.

Lemma pools_app evs1 evs2 : pools (evs1 ++ evs2) = pools evs1 ++ pools evs2.
Proof. apply omap_app. Qed.

Lemma started_job_start ds_name evs :
  started (job_start ds_name :: evs) = job_start ds_name :: started evs.
Proof. reflexivity. Qed.

#[local] Instance loads_preorder : PreOrder loads.
Proof.
  split.
  - intros w. split; [|split; [done|]].
    + exists []. by rewrite app_nil_r.
    + intros t old Hold. exists []. rewrite app_nil_r. exact Hold.
  - intros w1 w2 w3 [(evs1 & Ht1 & Hs1 & Hp1) [Hf1 Hg1]]
                    [(evs2 & Ht2 & Hs2 & Hp2) [Hf2 Hg2]].
    split; [|split; [congruence|]].
    + exists (evs1 ++ evs2). rewrite Ht2, Ht1, <- app_assoc.
      rewrite started_app, pools_app, Hs1, Hs2, Hp1, Hp2. done.
    + intros t old Hold. destruct (Hg1 t old Hold) as [m1 Hm1].
      destruct (Hg2 t _ Hm1) as [m2 Hm2].
      exists (m1 ++ m2). by rewrite app_assoc.
Qed.

Lemma loads_print (line : string) :
  is_job_start (Printed line) = false → preserves loads (print line).
Proof.
  intros Hline w. simpl. split; [|split; [done|]].
  - exists [Printed line]. split; [done|]. unfold started. simpl in *.
    by rewrite Hline.
  - intros t old Hold. exists []. rewrite app_nil_r. exact Hold.
Qed.

Lemma loads_print_exn (e : Py.exn) : preserves loads (emit (PrintedExn e)).
Proof.
  intros w. simpl. split; [|split; [done|]].
  - by exists [PrintedExn e].
  - intros t old Hold. exists []. rewrite app_nil_r. exact Hold.
Qed.

Lemma loads_to_sql env df uri ds_name :
  preserves loads (Loader.to_sql env df uri ds_name).
Proof.
  intros w. unfold Loader.to_sql.
  destruct (db_accepts env ds_name (tables w !! ds_name) df); simpl.
  - split; [|split; [done|]].
    + exists []. by rewrite app_nil_r.
    + intros t old Hold. simpl. destruct (decide (t = ds_name)) as [->|Hne].
      * exists [df]. rewrite lookup_insert_eq, Hold. done.
      * exists []. rewrite lookup_insert_ne by done. by rewrite app_nil_r.
  - split; [|split; [done|]].
    + exists []. by rewrite app_nil_r.
    + intros t old Hold. exists []. rewrite app_nil_r. exact Hold.
Qed.

(** Over a whole dataset job the tables only grow at their end, and the
    job prints nothing that looks like the start of a job. *)
Lemma loads_db_loader env src uri ds_name :
  preserves loads (Loader.db_loader env src uri ds_name).
Proof.
  unfold Loader.db_loader.
  apply preserves_bind; [apply _ | apply preserves_json_load; apply _ |].
  intros schemas. destruct (glob_part env (src +:+ "/" +:+ ds_name)) as [|f fs].
  - apply preserves_raise; apply _.
  - apply preserves_for_each; [apply _|]. intros file.
    apply preserves_bind; [apply _ | apply preserves_lift; apply _ |].
    intros df_reader. apply preserves_for_each; [apply _|].
    intros [idx df]. apply preserves_bind; [apply _ | | intros _; apply loads_to_sql].
    apply loads_print. reflexivity.
Qed.

(** A dataset job run by the loader's worker never lets an exception
    out: whatever [db_loader] does, [process_dataset] returns. *)
Lemma process_dataset_returns env src uri ds_name w :
  ∃ (w' : World) (evs : list event),
    Loader.process_dataset env (src, uri, ds_name) w = (inr tt, w') ∧
    trace w' = trace w ++ job_start ds_name :: evs ∧
    started evs = [] ∧ pools evs = [] ∧
    target_files w' = target_files w ∧
    ∀ (t : string) (old : list DataFrame), tables w !! t = Some old →
      ∃ more : list DataFrame, tables w' !! t = Some (old ++ more).
Proof.
  unfold Loader.process_dataset, try_finally, try_except.
  unfold bind at 1. unfold print at 1. unfold emit at 1.
  set (w1 := mkWorld _ _ (trace w ++ [Printed ("Processing " +:+ ds_name)])).
  pose proof (loads_db_loader env src uri ds_name w1) as Hload.
  destruct (Loader.db_loader env src uri ds_name w1) as [r w2].
  simpl in Hload. destruct Hload as [(evs & Ht & Hs & Hp) [Hf Hg]].
  set (done_line := Printed ("Data Processing of " +:+ ds_name +:+ " is completed successfully")).
  destruct r as [e|[]].
  - exists (mkWorld (target_files w2) (tables w2)
              ((trace w2 ++ [PrintedExn e]) ++ [done_line])),
           (evs ++ [PrintedExn e; done_line]).
    split; [by destruct e|]. simpl. rewrite Ht. subst w1. simpl.
    rewrite started_app, pools_app, Hs, Hp.
    repeat split; try done.
    by rewrite <- !app_assoc.
  - exists (mkWorld (target_files w2) (tables w2) (trace w2 ++ [done_line])),
           (evs ++ [done_line]).
    split; [done|]. simpl. rewrite Ht. subst w1. simpl.
    rewrite started_app, pools_app, Hs, Hp.
    repeat split; try done.
    by rewrite <- !app_assoc.
Qed.

(** The pool runs every job it is given, one after the other here, and
    nothing a job does keeps a later one from running. *)
Lemma pool_map_process_dataset env src uri (ds_names : list string) w :
  ∃ (w' : World) (evs : list event),
    pool_map (Loader.process_dataset env)
             (map (λ ds_name, (src, uri, ds_name)) ds_names) w = (inr tt, w') ∧
    trace w' = trace w ++ evs ∧
    started evs = map job_start ds_names ∧ pools evs = [] ∧
    target_files w' = target_files w ∧
    ∀ (t : string) (old : list DataFrame), tables w !! t = Some old →
      ∃ more : list DataFrame, tables w' !! t = Some (old ++ more).
Proof.
  revert w. induction ds_names as [|ds_name ds_names IH]; intros w.
  - exists w, []. simpl. rewrite app_nil_r. repeat split; try done.
    intros t old Hold. exists []. rewrite app_nil_r. exact Hold.
  - cbn [map pool_map].
    destruct (process_dataset_returns env src uri ds_name w)
      as (w1 & evs1 & Hrun & Ht1 & Hs1 & Hp1 & Hf1 & Hg1).
    rewrite Hrun.
    destruct (IH w1) as (w2 & evs2 & Hrest & Ht2 & Hs2 & Hp2 & Hf2 & Hg2).
    rewrite Hrest. exists w2, (job_start ds_name :: evs1 ++ evs2).
    split; [done|]. rewrite Ht2, Ht1, <- app_assoc.
    rewrite started_job_start, started_app, Hs1, Hs2.
    change (pools (job_start ds_name :: evs1 ++ evs2)) with (pools (evs1 ++ evs2)).
    rewrite pools_app, Hp1, Hp2.
    repeat split; try done; [congruence|].
    intros t old Hold. destruct (Hg1 t old Hold) as [m1 Hm1].
    destruct (Hg2 t _ Hm1) as [m2 Hm2].
    exists (m1 ++ m2). by rewrite app_assoc.
Qed.

(** ** The dispatchers *)

(** Once the schema is read, the loader's dispatcher is a pool followed
    by one job per name, all with the same connection string. *)
Lemma loader_process_files_unfold (env : Source) (environ : Environ)
    (schemas : Schemas) (ds_names : option (list string)) (w : World) :
  json_docs env !! (SRC_BASE_DIR environ +:+ "/schemas.json") = Some schemas →
  ∃ uri : string,
    Loader.process_files env environ ds_names w
    = (let names :=
         if falsy ds_names then Py.dict_keys schemas else default [] ds_names in
       Pool (Nat.min (length names) 8) ;;;
       pool_map (Loader.process_dataset env)
         (map (λ ds_name, (SRC_BASE_DIR environ, uri, ds_name)) names)) w.
Proof.
  intros Hdoc. eexists. unfold Loader.process_files.
  unfold bind at 1. unfold json_load. rewrite Hdoc. reflexivity.
Qed.

(** A pool for at least one name is created, with [min(N, 8)] workers,
    and then every name gets its job. *)
Lemma loader_pool_run (env : Source) (src uri : string) (names : list string)
    (w : World) :
  names ≠ [] →
  ∃ (w' : World) (evs : list event),
    (Pool (Nat.min (length names) 8) ;;;
     pool_map (Loader.process_dataset env)
       (map (λ ds_name, (src, uri, ds_name)) names)) w = (inr tt, w') ∧
    trace w' = trace w ++ evs ∧
    pools evs = [Nat.min (length names) 8] ∧
    started evs = map job_start names ∧
    ∀ (t : string) (old : list DataFrame), tables w !! t = Some old →
      ∃ more : list DataFrame, tables w' !! t = Some (old ++ more).
Proof.
  intros Hne. unfold bind, Pool.
  assert (Hmin : (Nat.min (length names) 8 <? 1) = false).
  { apply Nat.ltb_ge. destruct names; [done|simpl; lia]. }
  rewrite Hmin. unfold emit. set (w1 := mkWorld _ _ _).
  destruct (pool_map_process_dataset env src uri names w1)
    as (w2 & evs & Hrun & Ht & Hs & Hp & _ & Hgrow).
  exists w2, (PoolCreated (Nat.min (length names) 8) :: evs).
  split; [exact Hrun|]. split; [|split; [|split]].
  - rewrite Ht. subst w1. simpl. by rewrite <- app_assoc.
  - change (pools (PoolCreated ?n :: evs)) with (n :: pools evs).
    by rewrite Hp.
  - exact Hs.
  - exact Hgrow.
Qed.

(** C6 (as amended). With a readable schema the loader's dispatcher
    works on the requested names when the list is not empty and on the
    keys of the schema when it is omitted or empty.  When there is at
    least one name it creates exactly one pool, of size [min(N, 8)] for
    [N] names, and starts one job per name, in order; it returns whatever
    the jobs did.  When there is no name (empty schema) creating the pool
    raises [ValueError] and nothing else happens. *)
Theorem process_files_pool_size (env : Source) (environ : Environ)
    (schemas : Schemas) (ds_names : option (list string)) (w : World) :
  json_docs env !! (SRC_BASE_DIR environ +:+ "/schemas.json") = Some schemas →
  let names :=
    if falsy ds_names then Py.dict_keys schemas else default [] ds_names in
  (∀ l : list string, ds_names = Some l → l ≠ [] → names = l) ∧
  (names ≠ [] →
   ∃ (w' : World) (evs : list event),
     Loader.process_files env environ ds_names w = (inr tt, w') ∧
     trace w' = trace w ++ evs ∧
     pools evs = [Nat.min (length names) 8] ∧
     started evs = map job_start names) ∧
  (names = [] →
   Loader.process_files env environ ds_names w
   = (inl (Py.ValueError "Number of processes must be at least 1"), w)).
Proof.
  intros Hdoc names.
  destruct (loader_process_files_unfold env environ schemas ds_names w Hdoc)
    as [uri Hrun].
  cbv zeta in Hrun. fold names in Hrun. split; [|split].
  - intros l -> Hl. subst names. by destruct l.
  - intros Hne.
    destruct (loader_pool_run env (SRC_BASE_DIR environ) uri names w Hne)
      as (w' & evs & Hpool & Ht & Hp & Hs & _).
    exists w', evs. by rewrite Hrun.
  - intros Hnil. rewrite Hrun, Hnil. reflexivity.
Qed.

(** ** The sinks *)

(** Over a run of the loader's dispatcher, however it ends, a table
    keeps what it held and gets the new rows at its end. *)
Lemma loader_run_appends (env : Source) (environ : Environ)
    (ds_names : option (list string)) (w : World) (t : string)
    (old : list DataFrame) :
  tables w !! t = Some old →
  ∃ more : list DataFrame,
    tables (Loader.process_files env environ ds_names w).2 !! t
    = Some (old ++ more).
Proof.
  intros Hold.
  destruct (json_docs env !! (SRC_BASE_DIR environ +:+ "/schemas.json"))
    as [schemas|] eqn:Hdoc.
  - destruct (loader_process_files_unfold env environ schemas ds_names w Hdoc)
      as [uri ->]. cbv zeta.
    set (names := if falsy ds_names then _ else _).
    destruct (decide (names = [])) as [->|Hne].
    + exists []. rewrite app_nil_r. exact Hold.
    + destruct (loader_pool_run env (SRC_BASE_DIR environ) uri names w Hne)
        as (w' & evs & -> & _ & _ & _ & Hgrow).
      by apply Hgrow.
  - unfold Loader.process_files. unfold bind at 1. unfold json_load.
    rewrite Hdoc. exists []. rewrite app_nil_r. exact Hold.
Qed.

(** C2 (as amended). The table sink never overwrites.  A batch write
    either is refused by the store, and then it raises and leaves the
    world as it was, or is taken, and then the dataset's table holds the
    frames it held before followed by the batch, every other table and
    every file being as before.  Over a whole run of the loader's
    dispatcher, however it ends, every table keeps what it held, in place,
    with what was appended after it.  The file sink is not append-only:
    after a write the destination file holds the frame written and
    nothing of what it held before; every other file and every table is
    as before. *)
Theorem sink_write_effect (df : DataFrame) (w : World) :
  (∀ (env : Source) (db_conn_uri ds_name : string),
     (db_accepts env ds_name (tables w !! ds_name) df = false →
      Loader.to_sql env df db_conn_uri ds_name w
      = (inl (Py.DatabaseError ds_name), w)) ∧
     (db_accepts env ds_name (tables w !! ds_name) df = true →
      ∃ w' : World,
        Loader.to_sql env df db_conn_uri ds_name w = (inr tt, w') ∧
        tables w' !! ds_name
        = Some (default [] (tables w !! ds_name) ++ [df]) ∧
        (∀ t : string, t ≠ ds_name → tables w' !! t = tables w !! t) ∧
        target_files w' = target_files w)) ∧
  (∀ tgt_base_dir ds_name file_name : string,
     let path := tgt_base_dir +:+ "/" +:+ ds_name +:+ "/" +:+ file_name in
     ∃ w' : World,
       Converter.to_json df tgt_base_dir ds_name file_name w = (inr tt, w') ∧
       target_files w' !! path = Some [df] ∧
       (∀ p : string, p ≠ path → target_files w' !! p = target_files w !! p) ∧
       tables w' = tables w) ∧
  (∀ (env : Source) (environ : Environ) (ds_names : option (list string))
     (t : string) (old : list DataFrame),
     tables w !! t = Some old →
     ∃ more : list DataFrame,
       tables (Loader.process_files env environ ds_names w).2 !! t
       = Some (old ++ more)).
Proof.
  split; [|split].
  - intros env uri ds_name. unfold Loader.to_sql. split; intros Hacc; rewrite Hacc.
    + reflexivity.
    + eexists. split; [reflexivity|]. simpl.
      split; [apply lookup_insert_eq|]. split; [|done].
      intros t Ht. by apply lookup_insert_ne.
  - intros tgt ds_name file_name path. eexists. split; [reflexivity|]. simpl.
    split; [apply lookup_insert_eq|]. split; [|done].
    intros p Hp. by apply lookup_insert_ne.
  - intros env environ ds_names t old Hold.
    by apply loader_run_appends.
Qed.

(** An explicitly empty list of dataset names is handled exactly as an
    omitted one, by both dispatchers: the two runs are the same
    computation.  With a readable schema the converter's loop is the one
    over the keys of the schema, and the loader starts one job for each
    of them. *)
Lemma empty_list_is_default (env : Source) (environ : Environ) (w : World) :
  Converter.process_files env environ (Some []) w
  = Converter.process_files env environ None w ∧
  Loader.process_files env environ (Some []) w
  = Loader.process_files env environ None w ∧
  ∀ schemas : Schemas,
    json_docs env !! (SRC_BASE_DIR environ +:+ "/schemas.json") = Some schemas →
    Converter.process_files env environ (Some []) w
    = for_each (Py.dict_keys schemas)
        (Converter.process_one env (SRC_BASE_DIR environ) (TGT_BASE_DIR environ)) w ∧
    (Py.dict_keys schemas ≠ [] →
     ∃ (w' : World) (evs : list event),
       Loader.process_files env environ (Some []) w = (inr tt, w') ∧
       trace w' = trace w ++ evs ∧
       started evs = map job_start (Py.dict_keys schemas)).
Proof.
  split; [reflexivity|]. split; [reflexivity|].
  intros schemas Hdoc. split.
  - unfold Converter.process_files, bind, json_load. by rewrite Hdoc.
  - intros Hkeys.
    destruct (loader_process_files_unfold env environ schemas (Some []) w Hdoc)
      as [uri ->]. cbv zeta. cbn [falsy].
    destruct (loader_pool_run env (SRC_BASE_DIR environ) uri
                (Py.dict_keys schemas) w Hkeys)
      as (w' & evs & Hrun & Ht & _ & Hs & _).
    by exists w', evs.
Qed.

(** The loader's dispatcher called without names, over a schema as the
    JSON parser builds it: the keys are distinct, they are the member
    names of the document, and each of them gets its job, once. *)
Lemma loader_default_run (env : Source) (environ : Environ)
    (members : list (string * list Column)) (w : World) :
  json_docs env !! (SRC_BASE_DIR environ +:+ "/schemas.json")
  = Some (Py.dict_of_members members) →
  members ≠ [] →
  let keys := Py.dict_keys (Py.dict_of_members members) in
  NoDup keys ∧
  (∀ k : string, k ∈ keys ↔ k ∈ map fst members) ∧
  ∃ (w' : World) (evs : list event),
    Loader.process_files env environ None w = (inr tt, w') ∧
    trace w' = trace w ++ evs ∧
    started evs = map job_start keys.
Proof.
  intros Hdoc Hmem keys.
  split; [apply dict_of_members_NoDup|].
  split; [apply dict_of_members_keys|].
  assert (Hkeys : keys ≠ []).
  { destruct members as [|[k v] ms]; [done|].
    intros Hnil. assert (Hk : k ∈ keys) by (apply dict_of_members_keys; left).
    rewrite Hnil in Hk. by apply elem_of_nil in Hk. }
  destruct (loader_process_files_unfold env environ _ None w Hdoc) as [uri ->].
  cbv zeta. cbn [falsy]. fold keys.
  destruct (loader_pool_run env (SRC_BASE_DIR environ) uri keys w Hkeys)
    as (w' & evs & Hrun & Ht & _ & Hs & _).
  by exists w', evs.
Qed.

(** ** Runs on the example trees *)

(** The dispatchers on [customers] (no part files) and [orders]: the
    first is reported as not found, the second is written in full. *)
Example not_found_does_not_stop_dispatch :
  (∃ w' : World,
     Converter.process_files Example.env Example.environ
       (Some ["customers"; "orders"]) Example.w0 = (inr tt, w') ∧
     trace w'
     = [ job_start "customers";
         PrintedExn (Py.NameError "file not found customers");
         Printed "Error processing customers";
         job_start "orders" ] ∧
     target_files w' !! "tgt/orders/part-0000"
     = Some [mkDataFrame ["id"; "amount"] Example.rows]) ∧
  (∃ w' : World,
     Loader.process_files Example.env Example.environ
       (Some ["customers"; "orders"]) Example.w0 = (inr tt, w') ∧
     trace w'
     = [ PoolCreated 2;
         job_start "customers";
         PrintedExn (Py.NameError "No files found for customers");
         Printed "Data Processing of customers is completed successfully";
         job_start "orders";
         Printed "Populating chunk 0 of orders";
         Printed "Data Processing of orders is completed successfully" ] ∧
     tables w' !! "orders"
     = Some [mkDataFrame ["id"; "amount"] Example.rows]).
Proof.
  split; eexists; (split; [vm_compute; reflexivity|]); split; by vm_compute.
Qed.

(** C1. The converter's dispatcher asked for [returns] and [orders]:
    [returns] has a part file but no entry in the schema, its job fails
    with [KeyError], the dispatcher lets the exception through and
    [orders] is never started nor written.  The loader's dispatcher, on
    the same request, reports the failure and loads [orders]. *)
Theorem converter_failure_stops_dispatch :
  (∃ w' : World,
     Converter.process_files Example.env Example.environ
       (Some ["returns"; "orders"]) Example.w0 = (inl (Py.KeyError "returns"), w') ∧
     trace w' = [job_start "returns"] ∧
     target_files w' = ∅) ∧
  (∃ w' : World,
     Loader.process_files Example.env Example.environ
       (Some ["returns"; "orders"]) Example.w0 = (inr tt, w') ∧
     started (trace w') = [job_start "returns"; job_start "orders"] ∧
     tables w' !! "orders"
     = Some [mkDataFrame ["id"; "amount"] Example.rows]).
Proof.
  split; eexists; (split; [vm_compute; reflexivity|]); split; by vm_compute.
Qed.

(** C9. The converter's dispatcher given the empty list, over a schema
    with the keys [orders] and [customers], when the part file of
    [orders] cannot be read: the run is the one of the call without
    names, so it takes the keys of the schema, but the job of [orders]
    fails with [OSError], the dispatcher lets it through and [customers]
    is never started: not all datasets of the schema are processed.  The
    loader's dispatcher, given the empty list, starts both. *)
Theorem converter_empty_list_run_stops_early :
  Py.dict_keys Example.schemas = ["orders"; "customers"] ∧
  Converter.process_files Example.env_unreadable Example.environ (Some []) Example.w0
  = Converter.process_files Example.env_unreadable Example.environ None Example.w0 ∧
  (∃ w' : World,
     Converter.process_files Example.env_unreadable Example.environ (Some [])
       Example.w0
     = (inl (Py.OSError "src/orders/part-0000"), w') ∧
     started (trace w') = [job_start "orders"] ∧
     target_files w' = ∅) ∧
  (∃ w' : World,
     Loader.process_files Example.env_unreadable Example.environ (Some [])
       Example.w0
     = (inr tt, w') ∧
     started (trace w') = [job_start "orders"; job_start "customers"]).
Proof.
  split; [reflexivity|]. split; [reflexivity|].
  split; eexists; (split; [vm_compute; reflexivity|]); try split; by vm_compute.
Qed.

(** C8. The converter's dispatcher called without names over a schema
    with the keys [orders] and [customers], when the part file of
    [orders] cannot be read: the job of [orders] fails with [OSError],
    the dispatcher lets it through and [customers], a key of the schema,
    is never started.  The loader's dispatcher starts both. *)
Theorem converter_default_run_stops_early :
  Py.dict_keys Example.schemas = ["orders"; "customers"] ∧
  (∃ w' : World,
     Converter.process_files Example.env_unreadable Example.environ None Example.w0
     = (inl (Py.OSError "src/orders/part-0000"), w') ∧
     started (trace w') = [job_start "orders"] ∧
     target_files w' = ∅) ∧
  (∃ w' : World,
     Loader.process_files Example.env_unreadable Example.environ None Example.w0
     = (inr tt, w') ∧
     started (trace w') = [job_start "orders"; job_start "customers"]).
Proof.
  split; [reflexivity|].
  split; eexists; (split; [vm_compute; reflexivity|]); try split; by vm_compute.
Qed.

(** ** Inputs on which the specification's statements fail *)

(** C2, counterexample. The output file of [orders] holds the records of
    a frame written earlier; the converter writes a frame to it;
    afterwards the file holds the records of the new frame only: what was
    there is not a prefix of what is there now. *)
Lemma to_json_overwrites :
  let df := mkDataFrame ["id"; "amount"] Example.rows in
  ∃ w' : World,
    Converter.to_json df "tgt" "orders" "part-0000" Example.w_old = (inr tt, w') ∧
    target_files Example.w_old !! "tgt/orders/part-0000" = Some [Example.old_frame] ∧
    target_files w' !! "tgt/orders/part-0000" = Some [df] ∧
    ¬ ([Example.old_frame] `prefix_of` [df]).
Proof.
  eexists. split; [reflexivity|]. split; [by vm_compute|]. split; [by vm_compute|].
  intros [more Hmore]. vm_compute in Hmore. discriminate Hmore.
Qed.

(** C3, counterexample. A file of 10001 rows, one more than the batch
    size: the converter's reader returns a single frame with all 10001
    rows, where batches of 10000 would be two, of 10000 rows and of 1. *)
Lemma converter_reads_in_one_piece :
  ∃ df : DataFrame,
    Converter.read_csv Example.long_env "src/orders/part-0000" Example.schemas
    = inr df ∧
    length (df_rows df) = S Loader.chunksize ∧
    ceil_div (S Loader.chunksize) Loader.chunksize = 2.
Proof.
  exists (mkDataFrame ["id"; "amount"] Example.long_rows).
  split; [by vm_compute|]. split; [|by vm_compute].
  apply length_replicate.
Qed.

(** C6, counterexample. The loader's dispatcher given the empty list,
    so [N = 0] and [min(N, 8) = 0], over a schema with two keys: it
    creates a pool of size 2 and starts two jobs. *)
Lemma empty_list_pool_size :
  ∃ w' : World,
    Loader.process_files Example.env Example.environ (Some []) Example.w0
    = (inr tt, w') ∧
    pools (trace w') = [2] ∧
    Nat.min (length (@nil string)) 8 = 0 ∧
    started (trace w') = [job_start "orders"; job_start "customers"].
Proof.
  eexists. split; [vm_compute; reflexivity|]. repeat split; by vm_compute.
Qed.

(** ** The theorems at work on the example trees *)

Lemma get_column_names_sorted_witness :
  Py.dict_get Example.schemas "customers"
  = Some [mkColumn "name" 1; mkColumn "customer_id" 0] ∧
  ∃ columns : list Column,
    Converter.get_column_names Example.schemas "customers"
    = inr (map column_name columns) ∧
    Loader.get_column_names Example.schemas "customers"
    = inr (map column_name columns) ∧
    columns ≡ₚ [mkColumn "name" 1; mkColumn "customer_id" 0] ∧
    StronglySorted (λ a b, (column_position a ≤ column_position b)%Z) columns ∧
    ∀ p : Z, filter (λ c, column_position c = p) columns
             = filter (λ c, column_position c = p)
                 [mkColumn "name" 1; mkColumn "customer_id" 0].
Proof.
  split; [reflexivity|].
  apply (get_column_names_sorted Example.schemas "customers"). reflexivity.
Defined.

Lemma get_column_names_unknown_witness :
  ("returns" ∉ Py.dict_keys Example.schemas) ∧
  Converter.get_column_names Example.schemas "returns" = inl (Py.KeyError "returns") ∧
  Loader.get_column_names Example.schemas "returns" = inl (Py.KeyError "returns").
Proof.
  assert ("returns" ∉ Py.dict_keys Example.schemas) as H.
  { apply dict_get_None. reflexivity. }
  split; [exact H|].
  exact (get_column_names_unknown Example.schemas "returns" H).
Defined.

Lemma read_csv_batches_witness :
  Py.index_last2 (Py.re_split "src/orders/part-0000") = Some "orders" ∧
  Py.dict_get Example.schemas "orders"
  = Some [mkColumn "id" 0; mkColumn "amount" 1] ∧
  csv_rows Example.env !! "src/orders/part-0000" = Some Example.rows ∧
  Converter.read_csv Example.env "src/orders/part-0000" Example.schemas
  = inr (mkDataFrame ["id"; "amount"] Example.rows) ∧
  ∃ frames : list DataFrame,
    pd_read_csv_chunked Example.env "src/orders/part-0000" ["id"; "amount"] 1
    = inr frames ∧
    length frames = 2.
Proof.
  assert (H1 : Py.index_last2 (Py.re_split "src/orders/part-0000") = Some "orders")
    by reflexivity.
  assert (H2 : Py.dict_get Example.schemas "orders"
               = Some [mkColumn "id" 0; mkColumn "amount" 1]) by reflexivity.
  assert (H3 : csv_rows Example.env !! "src/orders/part-0000" = Some Example.rows)
    by (vm_compute; reflexivity).
  destruct (read_csv_batches Example.env "src/orders/part-0000" Example.schemas
              "orders" _ Example.rows H1 H2 H3) as (HB & _ & _ & HC).
  split; [exact H1|]. split; [exact H2|]. split; [exact H3|]. split; [exact HC|].
  destruct (HB 1 ltac:(lia)) as (frames & Hf & _ & _ & Hlen).
  exists frames. split; [exact Hf|].
  destruct (Hlen ltac:(discriminate)) as [-> _]. reflexivity.
Defined.

Lemma read_csv_resolves_parent_dir_witness :
  no_sep "orders" = true ∧ no_sep "part-0000" = true ∧
  ("orders" ∉ Py.dict_keys Example.nested_schemas) ∧
  ("retail/orders" ∈ Py.dict_keys Example.nested_schemas) ∧
  Converter.file_converter Example.nested_env "src" "tgt" "retail/orders" Example.w0
  = (inl (Py.KeyError "orders"), Example.w0) ∧
  Loader.db_loader Example.nested_env "src" "postgresql://" "retail/orders" Example.w0
  = (inl (Py.KeyError "orders"), Example.w0).
Proof.
  assert ("orders" ∉ Py.dict_keys Example.nested_schemas) as H.
  { apply dict_get_None. reflexivity. }
  split; [reflexivity|]. split; [reflexivity|]. split; [exact H|].
  split; [left|].
  destruct (read_csv_resolves_parent_dir Example.nested_env Example.nested_schemas
              "src/retail" "orders" "part-0000" eq_refl eq_refl)
    as (_ & _ & Hfail).
  destruct (Hfail H) as (_ & _ & Hjob).
  apply (Hjob "src" "tgt" "postgresql://" "retail/orders" [] Example.w0).
  - vm_compute; reflexivity.
  - vm_compute; reflexivity.
Defined.

Lemma no_part_files_not_found_witness :
  glob_part Example.env ("src" +:+ "/" +:+ "customers") = [] ∧
  Converter.file_converter Example.env "src" "tgt" "customers" Example.w0
  = (inl (Py.NameError "file not found customers"), Example.w0) ∧
  Loader.db_loader Example.env "src" "postgresql://" "customers" Example.w0
  = (inl (Py.NameError "No files found for customers"), Example.w0).
Proof.
  assert (H1 : json_docs Example.env !! ("src" +:+ "/schemas.json")
               = Some Example.schemas) by (vm_compute; reflexivity).
  assert (H2 : glob_part Example.env ("src" +:+ "/" +:+ "customers") = [])
    by (vm_compute; reflexivity).
  split; [exact H2|].
  destruct (no_part_files_not_found Example.env
              "src" "tgt" "postgresql://" "customers" Example.w0 H2)
    as (_ & _ & Hjobs).
  destruct (Hjobs Example.schemas H1) as (HC & HL & _).
  split; [exact HC | exact HL].
Defined.

Lemma process_files_pool_size_witness :
  json_docs Example.env !! (SRC_BASE_DIR Example.environ +:+ "/schemas.json")
  = Some Example.schemas ∧
  ∃ (w' : World) (evs : list event),
    Loader.process_files Example.env Example.environ (Some ["orders"]) Example.w0
    = (inr tt, w') ∧
    trace w' = trace Example.w0 ++ evs ∧
    pools evs = [1] ∧
    started evs = [job_start "orders"].
Proof.
  assert (H : json_docs Example.env !! (SRC_BASE_DIR Example.environ +:+ "/schemas.json")
              = Some Example.schemas) by (vm_compute; reflexivity).
  split; [exact H|].
  destruct (process_files_pool_size Example.env Example.environ Example.schemas
              (Some ["orders"]) Example.w0 H) as (_ & Hrun & _).
  exact (Hrun ltac:(discriminate)).
Defined.

(** ** Whole jobs *)

Lemma for_each_app {A} (l1 l2 : list A) (body : A → M unit) (w : World) :
  for_each (l1 ++ l2) body w = (for_each l1 body ;;; for_each l2 body) w.
Proof.
  revert w. induction l1 as [|x l1 IH]; intros w; cbn [for_each app].
  - unfold bind. simpl. by destruct (for_each l2 body w) as [[e|[]] w1].
  - unfold bind. destruct (body x w) as [[e|[]] w1]; [done|].
    rewrite IH. reflexivity.
Qed.

Lemma file_name_of_joined dir name :
  no_sep name = true →
  Py.index_last (Py.re_split (dir +:+ "/" +:+ name)) = Some name.
Proof.
  intros Hn. change ("/" +:+ name) with (String "/"%char name).
  rewrite re_split_at_sep, (re_split_no_sep name) by done.
  apply last_snoc.
Qed.

Lemma dataset_of_part_path src ds_name name :
  no_sep ds_name = true → no_sep name = true →
  Py.index_last2 (Py.re_split (part_path src ds_name name)) = Some ds_name.
Proof.
  intros Hd Hn. unfold part_path.
  change ("/" +:+ name) with (String "/"%char name).
  rewrite re_split_at_sep by done.
  change ("/" +:+ ds_name) with (String "/"%char ds_name).
  rewrite re_split_at_sep by done.
  rewrite (re_split_no_sep ds_name), (re_split_no_sep name) by done.
  rewrite <- app_assoc. apply index_last2_app.
Qed.

(** One turn of the converter's loop on a file it can read. *)
Lemma converter_file_step (env : Source) (schemas : Schemas)
    (src tgt ds_name : string) (column_details : list Column) (name : string)
    (w : World) :
  no_sep ds_name = true → no_sep name = true →
  Py.dict_get schemas ds_name = Some column_details →
  is_Some (csv_rows env !! part_path src ds_name name) →
  let file := part_path src ds_name name in
  (df <- lift (Converter.read_csv env file schemas) ;;
   match Py.index_last (Py.re_split file) with
   | None => raise Py.IndexError
   | Some file_name => Converter.to_json df tgt ds_name file_name
   end) w
  = (inr tt,
     mkWorld (<[tgt +:+ "/" +:+ ds_name +:+ "/" +:+ name
                := [whole_frame env (names_of column_details) file]]> (target_files w))
             (tables w) (trace w)).
Proof.
  intros Hd Hn Hcols [rows Hrows]. cbv zeta.
  unfold bind, lift, Converter.read_csv.
  rewrite dataset_of_part_path by done.
  unfold Converter.get_column_names. rewrite Hcols. cbn [rbind].
  unfold pd_read_csv. rewrite Hrows.
  unfold part_path at 1. rewrite file_name_of_joined by done.
  unfold Converter.to_json, whole_frame, rows_at. rewrite Hrows.
  reflexivity.
Qed.

(** What a sequence of writes to a map leaves at a key. *)
Section FoldInsert.
Context {V : Type} (f : string → string) (g : string → V) `{!Inj (=) (=) f}.

Lemma foldl_insert_lookup_notin (names : list string) (m : gmap string V) p :
  (∀ name, name ∈ names → f name ≠ p) →
  foldl (λ m name, <[f name := g name]> m) m names !! p = m !! p.
Proof.
  revert m. induction names as [|x names IH]; intros m Hp; simpl; [done|].
  rewrite IH by (intros name Hin; apply Hp; by right).
  apply lookup_insert_ne. apply Hp. left.
Qed.

Lemma foldl_insert_lookup_in (names : list string) (m : gmap string V) name :
  name ∈ names →
  foldl (λ m name, <[f name := g name]> m) m names !! f name = Some (g name).
Proof.
  revert m. induction names as [|x names IH]; intros m Hin; simpl.
  - by apply elem_of_nil in Hin.
  - destruct (decide (name ∈ names)) as [Hrest|Hrest]; [by apply IH|].
    apply elem_of_cons in Hin as [->|Hin]; [|done].
    rewrite foldl_insert_lookup_notin; [apply lookup_insert_eq|].
    intros name Hname Heq. apply (inj f) in Heq. by subst.
Qed.

Lemma foldl_insert_perm (names1 names2 : list string) (m : gmap string V) :
  names1 ≡ₚ names2 →
  foldl (λ m name, <[f name := g name]> m) m names1
  = foldl (λ m name, <[f name := g name]> m) m names2.
Proof.
  intros Hperm. apply map_eq. intros p.
  destruct (decide (p ∈ map f names1)) as [Hin|Hout].
  - apply list_elem_of_fmap in Hin as (name & -> & Hin).
    rewrite !foldl_insert_lookup_in; [done| by rewrite <- Hperm | done].
  - rewrite !foldl_insert_lookup_notin; [done| |].
    + intros name Hin <-. apply Hout, list_elem_of_fmap. exists name.
      by rewrite Hperm.
    + intros name Hin <-. apply Hout, list_elem_of_fmap. by exists name.
Qed.
End FoldInsert.

#[local] Instance target_path_inj tgt ds_name :
  Inj (=) (=) (λ name, tgt +:+ "/" +:+ ds_name +:+ "/" +:+ name).
Proof.
  intros n1 n2 H.
  apply (inj (String.app tgt)) in H.
  apply (inj (String.app "/")) in H.
  apply (inj (String.app ds_name)) in H.
  by apply (inj (String.app "/")) in H.
Qed.

(** The converter's loop over files it can read. *)
Lemma converter_loop (env : Source) (schemas : Schemas)
    (src tgt ds_name : string) (column_details : list Column)
    (names : list string) (w : World) :
  no_sep ds_name = true →
  Py.dict_get schemas ds_name = Some column_details →
  readable env src ds_name names →
  for_each (map (part_path src ds_name) names)
    (λ file,
       df <- lift (Converter.read_csv env file schemas) ;;
       match Py.index_last (Py.re_split file) with
       | None => raise Py.IndexError
       | Some file_name => Converter.to_json df tgt ds_name file_name
       end) w
  = (inr tt,
     converted_world env src tgt ds_name (names_of column_details) names w).
Proof.
  intros Hd Hcols Hread. revert w.
  induction Hread as [|name names [Hn Hfile] _ IH]; intros w.
  - by destruct w.
  - cbn [map for_each]. unfold bind at 1.
    rewrite (converter_file_step env schemas src tgt ds_name column_details name w)
      by done.
    rewrite IH. reflexivity.
Qed.

Lemma converter_bad_step (env : Source) (schemas : Schemas)
    (src tgt ds_name : string) (column_details : list Column) (name : string)
    (w : World) :
  no_sep ds_name = true → no_sep name = true →
  Py.dict_get schemas ds_name = Some column_details →
  csv_rows env !! part_path src ds_name name = None →
  let file := part_path src ds_name name in
  (df <- lift (Converter.read_csv env file schemas) ;;
   match Py.index_last (Py.re_split file) with
   | None => raise Py.IndexError
   | Some file_name => Converter.to_json df tgt ds_name file_name
   end) w
  = (inl (Py.OSError file), w).
Proof.
  intros Hd Hn Hcols Hrows. cbv zeta.
  unfold bind, lift, Converter.read_csv.
  rewrite dataset_of_part_path by done.
  unfold Converter.get_column_names. rewrite Hcols. cbn [rbind].
  unfold pd_read_csv. by rewrite Hrows.
Qed.

(** The rows of the batches of a file are the rows of the file. *)
Lemma batch_frames_rows env columns file :
  concat (map df_rows (batch_frames env columns file)) = rows_at env file.
Proof.
  unfold batch_frames. rewrite map_map. simpl. rewrite map_id.
  apply concat_iter_chunks, chunksize_pos.
Qed.

Lemma iter_chunks_not_nil n (rows : list Row) : 0 < n → iter_chunks n rows ≠ [].
Proof.
  intros Hn. destruct rows as [|r rows]; [done|].
  rewrite iter_chunks_nonempty by done. rewrite chunks_step by done. done.
Qed.

(** The loader's inner loop over the frames of one file, from batch number
    [i] on, once the table exists and while the store takes the writes. *)
Lemma loader_frames_loop (env : Source) (uri ds_name : string)
    (frames : list DataFrame) (i : nat) (old : list DataFrame) (w : World) :
  takes_all env ds_name →
  tables w !! ds_name = Some old →
  for_each (combine (seq i (length frames)) frames)
    (λ '(idx, df),
       print ("Populating chunk " +:+ pretty idx +:+ " of " +:+ ds_name) ;;;
       Loader.to_sql env df uri ds_name) w
  = (inr tt,
     mkWorld (target_files w)
       (<[ds_name := old ++ frames]> (tables w))
       (trace w ++ map (chunk_line ds_name) (seq i (length frames)))).
Proof.
  intros Hacc. revert i old w.
  induction frames as [|df frames IH]; intros i old w Hold.
  - simpl. rewrite !app_nil_r, insert_id by done. by destruct w.
  - cbn [length seq combine for_each]. unfold bind at 1. unfold bind at 1.
    unfold print, emit, Loader.to_sql. cbn [tables target_files trace].
    rewrite Hacc, Hold. cbn [default from_option id].
    rewrite (IH (S i) (old ++ [df])) by apply lookup_insert_eq.
    cbn [tables target_files trace map].
    rewrite insert_insert_eq, <- !app_assoc. reflexivity.
Qed.

(** The same loop from the first batch, whether the table exists or not:
    the first write creates it. *)
Lemma loader_frames_loop_first (env : Source) (uri ds_name : string)
    (frames : list DataFrame) (w : World) :
  takes_all env ds_name →
  frames ≠ [] →
  for_each (enumerate frames)
    (λ '(idx, df),
       print ("Populating chunk " +:+ pretty idx +:+ " of " +:+ ds_name) ;;;
       Loader.to_sql env df uri ds_name) w
  = (inr tt,
     mkWorld (target_files w)
       (<[ds_name := default [] (tables w !! ds_name) ++ frames]> (tables w))
       (trace w ++ map (chunk_line ds_name) (seq 0 (length frames)))).
Proof.
  intros Hacc Hne. destruct frames as [|df frames]; [done|].
  unfold enumerate. cbn [length seq combine for_each].
  unfold bind at 1. unfold bind at 1.
  unfold print, emit, Loader.to_sql. cbn [tables target_files trace].
  rewrite Hacc.
  rewrite (loader_frames_loop env uri ds_name frames 1
             (default [] (tables w !! ds_name) ++ [df]))
    by (done || apply lookup_insert_eq).
  cbn [tables target_files trace map].
  rewrite insert_insert_eq, <- !app_assoc. reflexivity.
Qed.

(** One turn of the loader's outer loop on a file it can read. *)
Lemma loader_file_step (env : Source) (schemas : Schemas)
    (src uri ds_name : string) (column_details : list Column) (name : string)
    (w : World) :
  takes_all env ds_name →
  no_sep ds_name = true → no_sep name = true →
  Py.dict_get schemas ds_name = Some column_details →
  is_Some (csv_rows env !! part_path src ds_name name) →
  let file := part_path src ds_name name in
  (df_reader <- lift (Loader.read_csv env file schemas) ;;
   for_each (enumerate df_reader) (λ '(idx, df),
     print ("Populating chunk " +:+ pretty idx +:+ " of " +:+ ds_name) ;;;
     Loader.to_sql env df uri ds_name)) w
  = (inr tt,
     mkWorld (target_files w)
       (<[ds_name := default [] (tables w !! ds_name)
                     ++ batch_frames env (names_of column_details) file]> (tables w))
       (trace w ++ chunk_lines env ds_name file)).
Proof.
  intros Hacc Hd Hn Hcols [rows Hrows]. cbv zeta.
  unfold bind at 1. unfold lift, Loader.read_csv.
  rewrite dataset_of_part_path by done.
  unfold Loader.get_column_names. rewrite Hcols. cbn [rbind].
  unfold pd_read_csv_chunked. rewrite Hrows.
  rewrite loader_frames_loop_first; [|done|].
  - unfold batch_frames, chunk_lines, rows_at. rewrite Hrows.
    cbn [default from_option id]. by rewrite length_map.
  - intros Hnil. apply fmap_nil_inv in Hnil.
    by apply (iter_chunks_not_nil Loader.chunksize rows chunksize_pos).
Qed.

Lemma loader_bad_step (env : Source) (schemas : Schemas)
    (src uri ds_name : string) (column_details : list Column) (name : string)
    (w : World) :
  no_sep ds_name = true → no_sep name = true →
  Py.dict_get schemas ds_name = Some column_details →
  csv_rows env !! part_path src ds_name name = None →
  let file := part_path src ds_name name in
  (df_reader <- lift (Loader.read_csv env file schemas) ;;
   for_each (enumerate df_reader) (λ '(idx, df),
     print ("Populating chunk " +:+ pretty idx +:+ " of " +:+ ds_name) ;;;
     Loader.to_sql env df uri ds_name)) w
  = (inl (Py.OSError file), w).
Proof.
  intros Hd Hn Hcols Hrows. cbv zeta.
  unfold bind, lift, Loader.read_csv.
  rewrite dataset_of_part_path by done.
  unfold Loader.get_column_names. rewrite Hcols. cbn [rbind].
  unfold pd_read_csv_chunked. by rewrite Hrows.
Qed.

(** The loader's outer loop over files it can read, once the table
    exists. *)
Lemma loader_loop (env : Source) (schemas : Schemas)
    (src uri ds_name : string) (column_details : list Column)
    (names : list string) (old : list DataFrame) (w : World) :
  takes_all env ds_name →
  no_sep ds_name = true →
  Py.dict_get schemas ds_name = Some column_details →
  readable env src ds_name names →
  tables w !! ds_name = Some old →
  for_each (map (part_path src ds_name) names)
    (λ file,
       df_reader <- lift (Loader.read_csv env file schemas) ;;
       for_each (enumerate df_reader) (λ '(idx, df),
         print ("Populating chunk " +:+ pretty idx +:+ " of " +:+ ds_name) ;;;
         Loader.to_sql env df uri ds_name)) w
  = (inr tt,
     mkWorld (target_files w)
       (<[ds_name := old ++ concat (map (λ name,
                       batch_frames env (names_of column_details)
                         (part_path src ds_name name)) names)]>
          (tables w))
       (trace w ++ concat (map (λ name,
          chunk_lines env ds_name (part_path src ds_name name)) names))).
Proof.
  intros Hacc Hd Hcols Hread. revert old w.
  induction Hread as [|name names [Hn Hfile] _ IH]; intros old w Hold.
  - simpl. rewrite !app_nil_r, insert_id by done. by destruct w.
  - cbn [map for_each]. unfold bind at 1.
    rewrite (loader_file_step env schemas src uri ds_name column_details name w)
      by done.
    rewrite Hold. cbn [default from_option id].
    erewrite IH by apply lookup_insert_eq.
    cbn [tables target_files trace concat].
    rewrite insert_insert_eq, <- !app_assoc. reflexivity.
Qed.

(** The same loop from any world. *)
Lemma loader_loop_any (env : Source) (schemas : Schemas)
    (src uri ds_name : string) (column_details : list Column)
    (names : list string) (w : World) :
  takes_all env ds_name →
  no_sep ds_name = true →
  Py.dict_get schemas ds_name = Some column_details →
  readable env src ds_name names →
  for_each (map (part_path src ds_name) names)
    (λ file,
       df_reader <- lift (Loader.read_csv env file schemas) ;;
       for_each (enumerate df_reader) (λ '(idx, df),
         print ("Populating chunk " +:+ pretty idx +:+ " of " +:+ ds_name) ;;;
         Loader.to_sql env df uri ds_name)) w
  = (inr tt, loaded_world env src ds_name (names_of column_details) names w).
Proof.
  intros Hacc Hd Hcols Hread. destruct Hread as [|name names [Hn Hfile] Hread].
  - reflexivity.
  - cbn [map for_each]. unfold bind at 1.
    rewrite (loader_file_step env schemas src uri ds_name column_details name w)
      by done.
    erewrite loader_loop by (done || apply lookup_insert_eq).
    unfold loaded_world. cbn [tables target_files trace map concat].
    rewrite insert_insert_eq, <- !app_assoc. reflexivity.
Qed.

(** A run of the converter's job over files it can all read. *)
Lemma file_converter_run (env : Source) (schemas : Schemas)
    (src tgt ds_name : string) (column_details : list Column)
    (names : list string) (w : World) :
  json_docs env !! (src +:+ "/schemas.json") = Some schemas →
  no_sep ds_name = true →
  Py.dict_get schemas ds_name = Some column_details →
  lists_parts env src ds_name names →
  names ≠ [] →
  readable env src ds_name names →
  Converter.file_converter env src tgt ds_name w
  = (inr tt,
     converted_world env src tgt ds_name (names_of column_details) names w).
Proof.
  intros Hdoc Hd Hcols Hglob Hne Hread.
  unfold Converter.file_converter. unfold bind at 1. unfold json_load.
  rewrite Hdoc. cbn [ret]. rewrite Hglob, length_map.
  destruct (Nat.eqb_spec (length names) 0) as [Hlen|_].
  { apply length_zero_iff_nil in Hlen. done. }
  by eapply converter_loop.
Qed.

(** A run of the loader's job over files it can all read, every write
    taken. *)
Lemma db_loader_run (env : Source) (schemas : Schemas)
    (src uri ds_name : string) (column_details : list Column)
    (names : list string) (w : World) :
  json_docs env !! (src +:+ "/schemas.json") = Some schemas →
  no_sep ds_name = true →
  Py.dict_get schemas ds_name = Some column_details →
  lists_parts env src ds_name names →
  names ≠ [] →
  readable env src ds_name names →
  takes_all env ds_name →
  Loader.db_loader env src uri ds_name w
  = (inr tt, loaded_world env src ds_name (names_of column_details) names w).
Proof.
  intros Hdoc Hd Hcols Hglob Hne Hread Hacc.
  unfold Loader.db_loader. unfold bind at 1. unfold json_load.
  rewrite Hdoc. cbn [ret]. rewrite Hglob.
  destruct names as [|name names']; [done|].
  cbn [map]. by rewrite <- (loader_loop_any env schemas src uri ds_name
    column_details (name :: names') w).
Qed.

(** X1. Take a dataset whose name is a single path segment and a key of
    the schema, with a readable schema document, and for whose pattern
    [glob.glob] returns the paths [src/ds_name/name] of at least one
    name, the names being distinct single segments and all the files
    readable.  Then the converter's job returns normally, prints nothing
    and leaves the tables alone; afterwards every such [name] has its
    output file [tgt/ds_name/name], holding the one frame read from
    [src/ds_name/name] under the schema's column names (all rows of the
    file, in order), and every other path under the target root holds
    what it held before.  The target root is taken to be writable and to
    hold none of the inputs. *)
Theorem file_converter_writes_every_file (env : Source) (schemas : Schemas)
    (src tgt ds_name : string) (column_details : list Column)
    (names : list string) (w : World) :
  json_docs env !! (src +:+ "/schemas.json") = Some schemas →
  no_sep ds_name = true →
  Py.dict_get schemas ds_name = Some column_details →
  lists_parts env src ds_name names →
  names ≠ [] → NoDup names →
  readable env src ds_name names →
  ∃ w' : World,
    Converter.file_converter env src tgt ds_name w = (inr tt, w') ∧
    tables w' = tables w ∧ trace w' = trace w ∧
    (∀ name : string, name ∈ names →
       target_files w' !! (tgt +:+ "/" +:+ ds_name +:+ "/" +:+ name)
       = Some [mkDataFrame (names_of column_details)
                 (rows_at env (part_path src ds_name name))]) ∧
    (∀ p : string,
       (∀ name : string, name ∈ names → tgt +:+ "/" +:+ ds_name +:+ "/" +:+ name ≠ p) →
       target_files w' !! p = target_files w !! p).
Proof.
  intros Hdoc Hd Hcols Hglob Hne _ Hread.
  exists (converted_world env src tgt ds_name (names_of column_details) names w).
  split; [by eapply file_converter_run|].
  split; [done|]. split; [done|]. split.
  - intros name Hin. unfold converted_world, converted. cbn [target_files].
    by apply (foldl_insert_lookup_in
             (λ name, tgt +:+ "/" +:+ ds_name +:+ "/" +:+ name)
             (λ name, [whole_frame env (names_of column_details)
                         (part_path src ds_name name)])).
  - intros p Hp. unfold converted_world, converted. cbn [target_files].
    by apply (foldl_insert_lookup_notin
             (λ name, tgt +:+ "/" +:+ ds_name +:+ "/" +:+ name)
             (λ name, [whole_frame env (names_of column_details)
                         (part_path src ds_name name)])).
Qed.

(** X2. Under the conditions of X1 on the dataset and its files, and with
    a database that takes every write to the dataset's table, the
    loader's job returns normally; afterwards the table holds what it
    held before (nothing when it did not exist) followed by the batches
    of all part files, file after file in the order [glob.glob] gave and
    batch after batch in file order, and the rows of these batches, taken
    in order, are the rows of the files in order; no other table and no
    target file changes, and one line per batch is printed, the batches
    of every file numbered from 0. *)
Theorem db_loader_appends_all_rows (env : Source) (schemas : Schemas)
    (src uri ds_name : string) (column_details : list Column)
    (names : list string) (w : World) :
  json_docs env !! (src +:+ "/schemas.json") = Some schemas →
  no_sep ds_name = true →
  Py.dict_get schemas ds_name = Some column_details →
  lists_parts env src ds_name names →
  names ≠ [] →
  readable env src ds_name names →
  takes_all env ds_name →
  let batches :=
    concat (map (λ name, batch_frames env (names_of column_details)
                   (part_path src ds_name name)) names) in
  ∃ w' : World,
    Loader.db_loader env src uri ds_name w = (inr tt, w') ∧
    tables w' !! ds_name = Some (default [] (tables w !! ds_name) ++ batches) ∧
    concat (map df_rows batches)
    = concat (map (λ name, rows_at env (part_path src ds_name name)) names) ∧
    Forall (λ df, df_columns df = names_of column_details) batches ∧
    (∀ t : string, t ≠ ds_name → tables w' !! t = tables w !! t) ∧
    target_files w' = target_files w ∧
    trace w' = trace w ++ concat (map (λ name,
      chunk_lines env ds_name (part_path src ds_name name)) names).
Proof.
  intros Hdoc Hd Hcols Hglob Hne Hread Hacc batches.
  exists (loaded_world env src ds_name (names_of column_details) names w).
  split; [by eapply db_loader_run|].
  assert (Hrows : concat (map df_rows batches)
            = concat (map (λ name, rows_at env (part_path src ds_name name)) names)).
  { subst batches. clear. induction names as [|name names IH]; [done|].
    cbn [map concat]. rewrite map_app, concat_app, IH.
    by rewrite batch_frames_rows. }
  assert (Hcolumns : Forall (λ df, df_columns df = names_of column_details) batches).
  { subst batches. apply Forall_concat, Forall_map, Forall_forall.
    intros name _. unfold batch_frames. apply Forall_map. by apply Forall_true. }
  unfold loaded_world. destruct names as [|name names']; [done|].
  cbn [tables target_files trace]. split; [apply lookup_insert_eq|].
  split; [exact Hrows|]. split; [exact Hcolumns|].
  split; [|done]. intros t Ht. by apply lookup_insert_ne.
Qed.

(** X3. No rollback in the loader.  Take a dataset whose name is a single
    path segment and a key of the schema, with a readable schema
    document and a database that takes every write to its table; let
    [glob.glob] return the paths [src/ds_name/name] of the names
    [good ++ bad :: rest], all single segments, where the files of [good]
    can be read and the one of [bad] cannot.  Then the job ends with
    [OSError] on the file of [bad]; the batches of the files of [good]
    stay in the table, after what it held (the table is untouched when
    [good] is empty), nothing of [rest] is loaded, and no other table
    changes. *)
Theorem db_loader_keeps_rows_before_failure (env : Source) (schemas : Schemas)
    (src uri ds_name : string) (column_details : list Column)
    (good : list string) (bad : string) (rest : list string) (w : World) :
  json_docs env !! (src +:+ "/schemas.json") = Some schemas →
  no_sep ds_name = true →
  Py.dict_get schemas ds_name = Some column_details →
  lists_parts env src ds_name (good ++ bad :: rest) →
  readable env src ds_name good →
  no_sep bad = true →
  csv_rows env !! part_path src ds_name bad = None →
  takes_all env ds_name →
  ∃ w' : World,
    Loader.db_loader env src uri ds_name w
    = (inl (Py.OSError (part_path src ds_name bad)), w') ∧
    tables w' !! ds_name
    = match good with
      | [] => tables w !! ds_name
      | _ :: _ =>
          Some (default [] (tables w !! ds_name)
                ++ concat (map (λ name,
                     batch_frames env (names_of column_details)
                       (part_path src ds_name name)) good))
      end ∧
    (∀ t : string, t ≠ ds_name → tables w' !! t = tables w !! t).
Proof.
  intros Hdoc Hd Hcols Hglob Hgood Hbad Hrows Hacc.
  exists (loaded_world env src ds_name (names_of column_details) good w).
  split.
  - unfold Loader.db_loader. unfold bind at 1. unfold json_load.
    rewrite Hdoc. cbn [ret]. rewrite Hglob.
    destruct (map _ (good ++ bad :: rest)) as [|f fs] eqn:Hmap.
    { apply fmap_nil_inv in Hmap. by destruct good. }
    rewrite <- Hmap. clear Hmap f fs.
    rewrite map_app, for_each_app. unfold bind at 1.
    rewrite (loader_loop_any env schemas src uri ds_name column_details good w)
      by done.
    cbn [map for_each]. unfold bind at 1.
    by rewrite (loader_bad_step env schemas src uri ds_name column_details bad).
  - unfold loaded_world. destruct good as [|name good']; [done|].
    cbn [tables]. split; [apply lookup_insert_eq|].
    intros t Ht. by apply lookup_insert_ne.
Qed.

(** X4. No rollback in the converter.  Take a dataset whose name is a
    single path segment and a key of the schema, with a readable schema
    document; let [glob.glob] return the paths [src/ds_name/name] of the
    distinct names [good ++ bad :: rest], all single segments, where the
    files of [good] can be read and the one of [bad] cannot.  Then the
    job ends with [OSError] on the file of [bad]; the output files of
    [good] are written, each holding the frame of its input, and every
    other path holds what it held before: nothing of [bad] or [rest] is
    written.  The target root is taken to be writable and to hold none of
    the inputs. *)
Theorem file_converter_keeps_files_before_failure (env : Source)
    (schemas : Schemas) (src tgt ds_name : string) (column_details : list Column)
    (good : list string) (bad : string) (rest : list string) (w : World) :
  json_docs env !! (src +:+ "/schemas.json") = Some schemas →
  no_sep ds_name = true →
  Py.dict_get schemas ds_name = Some column_details →
  lists_parts env src ds_name (good ++ bad :: rest) →
  NoDup (good ++ bad :: rest) →
  readable env src ds_name good →
  no_sep bad = true →
  csv_rows env !! part_path src ds_name bad = None →
  ∃ w' : World,
    Converter.file_converter env src tgt ds_name w
    = (inl (Py.OSError (part_path src ds_name bad)), w') ∧
    (∀ name : string, name ∈ good →
       target_files w' !! (tgt +:+ "/" +:+ ds_name +:+ "/" +:+ name)
       = Some [mkDataFrame (names_of column_details)
                 (rows_at env (part_path src ds_name name))]) ∧
    (∀ p : string,
       (∀ name : string, name ∈ good → tgt +:+ "/" +:+ ds_name +:+ "/" +:+ name ≠ p) →
       target_files w' !! p = target_files w !! p).
Proof.
  intros Hdoc Hd Hcols Hglob _ Hgood Hbad Hrows.
  exists (converted_world env src tgt ds_name (names_of column_details) good w).
  split; [|split].
  - unfold Converter.file_converter. unfold bind at 1. unfold json_load.
    rewrite Hdoc. cbn [ret]. rewrite Hglob, length_map.
    destruct (Nat.eqb_spec (length (good ++ bad :: rest)) 0) as [Hlen|_].
    { rewrite length_app in Hlen. simpl in Hlen. lia. }
    rewrite map_app, for_each_app. unfold bind at 1.
    rewrite (converter_loop env schemas src tgt ds_name column_details good w)
      by done.
    cbn [map for_each]. unfold bind at 1.
    by rewrite (converter_bad_step env schemas src tgt ds_name column_details bad).
  - intros name Hin. unfold converted_world, converted. cbn [target_files].
    by apply (foldl_insert_lookup_in
             (λ name, tgt +:+ "/" +:+ ds_name +:+ "/" +:+ name)
             (λ name, [whole_frame env (names_of column_details)
                         (part_path src ds_name name)])).
  - intros p Hp. unfold converted_world, converted. cbn [target_files].
    by apply (foldl_insert_lookup_notin
             (λ name, tgt +:+ "/" +:+ ds_name +:+ "/" +:+ name)
             (λ name, [whole_frame env (names_of column_details)
                         (part_path src ds_name name)])).
Qed.

(** X14. Loading a dataset a second time loads it again.  Under the
    conditions of X2 (single-segment dataset name that is a key of a
    readable schema; [glob.glob] returning the paths [src/ds_name/name]
    of at least one name, all single segments with readable files; a
    database that takes every write to the table), two runs of the job
    in a row both return normally, and afterwards the table holds what it
    held before followed by the batches of the dataset twice. *)
Theorem db_loader_rerun_loads_again (env : Source) (schemas : Schemas)
    (src uri ds_name : string) (column_details : list Column)
    (names : list string) (w : World) :
  json_docs env !! (src +:+ "/schemas.json") = Some schemas →
  no_sep ds_name = true →
  Py.dict_get schemas ds_name = Some column_details →
  lists_parts env src ds_name names →
  names ≠ [] →
  readable env src ds_name names →
  takes_all env ds_name →
  let batches :=
    concat (map (λ name, batch_frames env (names_of column_details)
                   (part_path src ds_name name)) names) in
  ∃ w1 w2 : World,
    Loader.db_loader env src uri ds_name w = (inr tt, w1) ∧
    Loader.db_loader env src uri ds_name w1 = (inr tt, w2) ∧
    tables w2 !! ds_name
    = Some (default [] (tables w !! ds_name) ++ batches ++ batches).
Proof.
  intros Hdoc Hd Hcols Hglob Hne Hread Hacc batches.
  eexists _, _. split; [by eapply db_loader_run|].
  split; [by eapply db_loader_run|].
  unfold loaded_world. destruct names as [|name names']; [done|].
  cbn [tables]. rewrite !lookup_insert_eq. cbn [default from_option id].
  by rewrite <- app_assoc.
Qed.

(** X13. The order in which [glob.glob] returns the part files does not
    matter to the converter.  Take two source trees with the same
    readable schema document and the same files, a dataset whose name is
    a single path segment and a key of the schema, and let [glob.glob]
    return in the one tree the paths [src/ds_name/name] of the names
    [names1] and in the other those of [names2], a rearrangement of
    [names1]; the names are distinct single segments, at least one, and
    all the files can be read.  Then the converter's job does the same
    in both trees: same outcome, same world afterwards.  The target root
    is taken to be writable and to hold none of the inputs. *)
Theorem file_converter_ignores_listing_order (env1 env2 : Source)
    (schemas : Schemas) (src tgt ds_name : string)
    (column_details : list Column) (names1 names2 : list string) (w : World) :
  json_docs env1 !! (src +:+ "/schemas.json") = Some schemas →
  json_docs env2 !! (src +:+ "/schemas.json") = Some schemas →
  csv_rows env1 = csv_rows env2 →
  lists_parts env1 src ds_name names1 →
  lists_parts env2 src ds_name names2 →
  names1 ≡ₚ names2 →
  no_sep ds_name = true →
  Py.dict_get schemas ds_name = Some column_details →
  names1 ≠ [] → NoDup names1 →
  readable env1 src ds_name names1 →
  Converter.file_converter env1 src tgt ds_name w
  = Converter.file_converter env2 src tgt ds_name w.
Proof.
  intros Hdoc1 Hdoc2 Hcsv Hglob1 Hglob2 Hperm Hd Hcols Hne _ Hread.
  rewrite (file_converter_run env1 schemas src tgt ds_name column_details names1)
    by done.
  rewrite (file_converter_run env2 schemas src tgt ds_name column_details names2);
    [|done..| |].
  - f_equal. unfold converted_world. f_equal.
    unfold converted, whole_frame, rows_at. rewrite Hcsv.
    apply (foldl_insert_perm
             (λ name, tgt +:+ "/" +:+ ds_name +:+ "/" +:+ name)
             (λ name, [mkDataFrame (names_of column_details)
                         (default [] (csv_rows env2 !! part_path src ds_name name))])).
    exact Hperm.
  - intros Hnil. rewrite Hnil in Hperm. by apply Permutation_nil_r in Hperm.
  - unfold readable in *. rewrite <- Hperm, <- Hcsv. exact Hread.
Qed.

(** ** More on what a run keeps *)

Section PreservesMore.
Context (R : relation World) `{!PreOrder R}.

Lemma preserves_try_except (body : M unit) (handler : Py.exn → option (M unit)) :
  preserves R body →
  (∀ e h, handler e = Some h → preserves R h) →
  preserves R (try_except body handler).
Proof.
  intros Hb Hh w. unfold try_except. specialize (Hb w).
  destruct (body w) as [[e|x] w1]; simpl in *; [|done].
  destruct (handler e) as [h|] eqn:He; simpl; [|done].
  etrans; [exact Hb | by eapply Hh].
Qed.

Lemma preserves_try_finally (body cleanup : M unit) :
  preserves R body → preserves R cleanup →
  preserves R (try_finally body cleanup).
Proof.
  intros Hb Hc w. unfold try_finally. specialize (Hb w).
  destruct (body w) as [r w1]. specialize (Hc w1). simpl in *.
  destruct (cleanup w1) as [[e|x] w2]; simpl in *; by etrans.
Qed.

Lemma preserves_pool_map {A} (f : A → M unit) (args : list A) :
  (∀ a, a ∈ args → preserves R (f a)) → preserves R (pool_map f args).
Proof.
  induction args as [|a args IH]; intros Hf w; simpl; [reflexivity|].
  pose proof (Hf a ltac:(left) w) as Ha.
  destruct (f a w) as [r w1].
  pose proof (IH (λ b Hb, Hf b ltac:(by right)) w1) as Hrest.
  destruct (pool_map f args w1) as [r' w2]. simpl in *. by etrans.
Qed.

Lemma preserves_for_each_in {A} (l : list A) (body : A → M unit) :
  (∀ x, x ∈ l → preserves R (body x)) → preserves R (for_each l body).
Proof.
  induction l as [|x l IH]; intros Hb; simpl.
  - by apply preserves_ret.
  - apply preserves_bind; [done | apply Hb; left |].
    intros _. apply IH. intros y Hy. apply Hb. by right.
Qed.
End PreservesMore.

Lemma startswith_app_same a b c :
  Py.startswith (a +:+ b) (a +:+ c) = Py.startswith b c.
Proof.
  induction a as [|x a IH]; simpl; [done|].
  by rewrite Ascii.eqb_refl, IH.
Qed.

Lemma startswith_nil_l s : Py.startswith "" s = true.
Proof. by destruct s. Qed.

#[local] Instance writes_under_preorder prefix : PreOrder (writes_under prefix).
Proof.
  split.
  - by intros w.
  - intros w1 w2 w3 (Ht1 & Hr1 & Hf1) (Ht2 & Hr2 & Hf2).
    split; [congruence|]. split; [congruence|].
    intros p Hp. by rewrite Hf2, Hf1.
Qed.

#[local] Instance touches_only_preorder ds_names : PreOrder (touches_only ds_names).
Proof.
  split.
  - by intros w.
  - intros w1 w2 w3 (Hf1 & Ht1) (Hf2 & Ht2).
    split; [congruence|]. intros t Ht. by rewrite Ht2, Ht1.
Qed.

Lemma writes_under_to_json df tgt ds_name file_name :
  preserves (writes_under (tgt +:+ "/" +:+ ds_name +:+ "/"))
    (Converter.to_json df tgt ds_name file_name).
Proof.
  intros w. simpl. split; [done|]. split; [done|].
  intros p Hp. apply lookup_insert_ne. intros <-.
  replace (tgt +:+ "/" +:+ ds_name +:+ "/")
    with (tgt +:+ "/" +:+ ds_name +:+ "/" +:+ "") in Hp.
  - rewrite !startswith_app_same in Hp. by rewrite startswith_nil_l in Hp.
  - do 3 f_equal.
Qed.

Lemma writes_under_file_converter env src tgt ds_name :
  preserves (writes_under (tgt +:+ "/" +:+ ds_name +:+ "/"))
    (Converter.file_converter env src tgt ds_name).
Proof.
  unfold Converter.file_converter.
  apply preserves_bind; [apply _ | apply preserves_json_load; apply _ |].
  intros schemas.
  destruct (length (glob_part env (src +:+ "/" +:+ ds_name)) =? 0).
  - apply preserves_raise; apply _.
  - apply preserves_for_each; [apply _|]. intros file.
    apply preserves_bind; [apply _ | apply preserves_lift; apply _ |].
    intros df. destruct (Py.index_last (Py.re_split file)).
    + apply writes_under_to_json.
    + apply preserves_raise; apply _.
Qed.

Lemma touches_only_emit ds_names ev : preserves (touches_only ds_names) (emit ev).
Proof. by intros w. Qed.

Lemma touches_only_to_sql ds_names env df uri ds_name :
  ds_name ∈ ds_names →
  preserves (touches_only ds_names) (Loader.to_sql env df uri ds_name).
Proof.
  intros Hin w. unfold Loader.to_sql.
  destruct (db_accepts env ds_name (tables w !! ds_name) df); simpl; [|done].
  split; [done|].
  intros t Ht. apply lookup_insert_ne. by intros ->.
Qed.

Lemma touches_only_db_loader ds_names env src uri ds_name :
  ds_name ∈ ds_names →
  preserves (touches_only ds_names) (Loader.db_loader env src uri ds_name).
Proof.
  intros Hin. unfold Loader.db_loader.
  apply preserves_bind; [apply _ | apply preserves_json_load; apply _ |].
  intros schemas. destruct (glob_part env (src +:+ "/" +:+ ds_name)) as [|f fs].
  - apply preserves_raise; apply _.
  - apply preserves_for_each; [apply _|]. intros file.
    apply preserves_bind; [apply _ | apply preserves_lift; apply _ |].
    intros df_reader. apply preserves_for_each; [apply _|].
    intros [idx df]. apply preserves_bind; [apply _ | apply touches_only_emit |].
    intros _. by apply touches_only_to_sql.
Qed.

Lemma touches_only_process_dataset ds_names env src uri ds_name :
  ds_name ∈ ds_names →
  preserves (touches_only ds_names) (Loader.process_dataset env (src, uri, ds_name)).
Proof.
  intros Hin. unfold Loader.process_dataset.
  apply preserves_try_finally; [apply _ | | apply touches_only_emit].
  apply preserves_try_except; [apply _ | |].
  - apply preserves_bind; [apply _ | apply touches_only_emit |].
    intros _. by apply touches_only_db_loader.
  - intros e h He. destruct e; injection He as <-; apply touches_only_emit.
Qed.

(** X5. Without a readable [schemas.json] both dispatchers and both
    jobs end at once with [OSError] on the schema path and leave the
    world as it is: nothing printed, no pool created, nothing written.
    The loader's worker swallows that failure as any other: it prints it
    and the completion line and returns. *)
Theorem schema_unreadable_stops_run (env : Source) (environ : Environ)
    (ds_names : option (list string)) (tgt uri ds_name : string) (w : World) :
  json_docs env !! (SRC_BASE_DIR environ +:+ "/schemas.json") = None →
  let e := Py.OSError (SRC_BASE_DIR environ +:+ "/schemas.json") in
  Converter.process_files env environ ds_names w = (inl e, w) ∧
  Loader.process_files env environ ds_names w = (inl e, w) ∧
  Converter.file_converter env (SRC_BASE_DIR environ) tgt ds_name w = (inl e, w) ∧
  Loader.db_loader env (SRC_BASE_DIR environ) uri ds_name w = (inl e, w) ∧
  Loader.process_dataset env (SRC_BASE_DIR environ, uri, ds_name) w
  = (inr tt,
     mkWorld (target_files w) (tables w)
       (trace w ++ [job_start ds_name; PrintedExn e; done_line ds_name])).
Proof.
  intros Hdoc e.
  assert (HL : ∀ w, Loader.db_loader env (SRC_BASE_DIR environ) uri ds_name w
                    = (inl e, w)).
  { intros w1. unfold Loader.db_loader, bind, json_load. by rewrite Hdoc. }
  repeat split.
  - unfold Converter.process_files, bind, json_load. by rewrite Hdoc.
  - unfold Loader.process_files, bind, json_load. by rewrite Hdoc.
  - unfold Converter.file_converter, bind, json_load. by rewrite Hdoc.
  - apply HL.
  - unfold Loader.process_dataset, try_finally, try_except, bind, print, emit.
    rewrite HL. simpl. by rewrite <- !app_assoc.
Qed.

(** X6. The loader's worker always returns, and its last line is always
    "Data Processing of ... is completed successfully", also when the job
    failed: whatever the job raised is printed just before that line and
    goes no further; what the job wrote before failing stays. *)
Theorem process_dataset_always_reports_completion (env : Source)
    (src uri ds_name : string) (w : World) :
  let w1 := mkWorld (target_files w) (tables w) (trace w ++ [job_start ds_name]) in
  let r := (Loader.db_loader env src uri ds_name w1).1 in
  let w2 := (Loader.db_loader env src uri ds_name w1).2 in
  Loader.process_dataset env (src, uri, ds_name) w
  = (inr tt,
     mkWorld (target_files w2) (tables w2)
       (trace w2
        ++ match r with inl e => [PrintedExn e] | inr _ => [] end
        ++ [done_line ds_name])).
Proof.
  intros w1 r w2. subst r w2 w1.
  unfold Loader.process_dataset, try_finally, try_except, bind, print, emit,
    job_start, done_line.
  destruct (Loader.db_loader env src uri ds_name _) as [[e|[]] w2]; simpl.
  - destruct e; simpl; by rewrite <- app_assoc.
  - done.
Qed.

(** The body of the converter's loop never ends with [NameError]. *)
Lemma process_one_no_NameError env src tgt ds_name w e w' :
  Converter.process_one env src tgt ds_name w = (inl e, w') →
  Py.is_NameError e = false.
Proof.
  unfold Converter.process_one, try_except.
  destruct ((print ("Processing " +:+ ds_name) ;;;
             Converter.file_converter env src tgt ds_name) w) as [[e0|[]] w1];
    [|done].
  destruct e0; simpl; by intros [= <- <-].
Qed.

(** X7. The converter's dispatcher never ends with a [NameError]:
    whatever exception leaves [process_files] is of another kind. *)
Theorem converter_never_ends_with_NameError (env : Source) (environ : Environ)
    (ds_names : option (list string)) (w w' : World) (e : Py.exn) :
  Converter.process_files env environ ds_names w = (inl e, w') →
  Py.is_NameError e = false.
Proof.
  unfold Converter.process_files. unfold bind at 1. unfold json_load.
  destruct (json_docs env !! (SRC_BASE_DIR environ +:+ "/schemas.json"))
    as [schemas|]; cbn [ret raise]; [|by intros [= <- <-]].
  generalize (if falsy ds_names then Py.dict_keys schemas else default [] ds_names).
  intros names. revert w. induction names as [|ds_name names IH]; intros w.
  - by intros [=].
  - cbn [for_each]. unfold bind at 1.
    destruct (Converter.process_one env (SRC_BASE_DIR environ)
                (TGT_BASE_DIR environ) ds_name w) as [[e0|[]] w1] eqn:Hone.
    + intros [= <- <-]. by eapply process_one_no_NameError.
    + apply IH.
Qed.

(** X9. A job of the converter, however it ends, prints nothing, leaves
    the tables alone and changes no file whose path does not start with
    [tgt/ds_name/]. *)
Theorem file_converter_writes_only_under_its_directory (env : Source)
    (src tgt ds_name : string) (w : World) :
  let w' := (Converter.file_converter env src tgt ds_name w).2 in
  tables w' = tables w ∧ trace w' = trace w ∧
  ∀ p : string,
    Py.startswith (tgt +:+ "/" +:+ ds_name +:+ "/") p = false →
    target_files w' !! p = target_files w !! p.
Proof. apply (writes_under_file_converter env src tgt ds_name w). Qed.

(** X8. A run of the loader's dispatcher, however its jobs end, changes
    no target file and no table other than those named after the
    datasets it works on. *)
Theorem loader_touches_only_requested_tables (env : Source) (environ : Environ)
    (schemas : Schemas) (ds_names : option (list string)) (w : World) :
  json_docs env !! (SRC_BASE_DIR environ +:+ "/schemas.json") = Some schemas →
  let names :=
    if falsy ds_names then Py.dict_keys schemas else default [] ds_names in
  let w' := (Loader.process_files env environ ds_names w).2 in
  target_files w' = target_files w ∧
  ∀ t : string, t ∉ names → tables w' !! t = tables w !! t.
Proof.
  intros Hdoc names.
  destruct (loader_process_files_unfold env environ schemas ds_names w Hdoc)
    as [uri ->]. cbv zeta. fold names.
  assert (H : preserves (touches_only names)
                (Pool (Nat.min (length names) 8) ;;;
                 pool_map (Loader.process_dataset env)
                   (map (λ ds_name, (SRC_BASE_DIR environ, uri, ds_name)) names))).
  { apply preserves_bind; [apply _ | |].
    - unfold Pool. destruct (_ <? _); [apply preserves_raise; apply _|].
      apply touches_only_emit.
    - intros _. apply preserves_pool_map; [apply _|].
      intros a Ha. apply list_elem_of_fmap in Ha as (ds_name & -> & Hin).
      by apply touches_only_process_dataset. }
  apply (H w).
Qed.

Lemma NoDup_fmap_eq {A B} (f : A → B) (l : list A) x y :
  NoDup (map f l) → x ∈ l → y ∈ l → f x = f y → x = y.
Proof.
  induction l as [|a l IH]; intros Hnd Hx Hy Hf.
  - by apply elem_of_nil in Hx.
  - simpl in Hnd. apply NoDup_cons in Hnd as [Ha Hnd].
    apply elem_of_cons in Hx as [->|Hx]; apply elem_of_cons in Hy as [->|Hy].
    + done.
    + exfalso. apply Ha. rewrite Hf. apply list_elem_of_fmap. by exists y.
    + exfalso. apply Ha. rewrite <- Hf. apply list_elem_of_fmap. by exists x.
    + by apply IH.
Qed.

Lemma sorted_perm_unique (cols1 cols2 : list Column) :
  cols1 ≡ₚ cols2 → NoDup (map column_position cols1) →
  Py.sorted column_position cols1 = Py.sorted column_position cols2.
Proof.
  intros Hperm Hnd.
  apply (StronglySorted_unique_strong
           (λ a b : Column, (column_position a ≤ column_position b)%Z)).
  - intros x1 x2 H1 H2 Hle1 Hle2.
    rewrite (sorted_perm column_position cols1) in H1.
    rewrite (sorted_perm column_position cols2), <- Hperm in H2.
    apply (NoDup_fmap_eq column_position cols1); [done..|lia].
  - apply (sorted_ascending column_position).
  - apply (sorted_ascending column_position).
  - by rewrite !sorted_perm.
Qed.

(** X10. When the positions of a dataset's columns are distinct, the
    column names that resolution returns do not depend on the order in
    which the schema document lists the columns. *)
Theorem get_column_names_ignores_document_order (schemas1 schemas2 : Schemas)
    (ds_name : string) (cols1 cols2 : list Column) :
  Py.dict_get schemas1 ds_name = Some cols1 →
  Py.dict_get schemas2 ds_name = Some cols2 →
  cols1 ≡ₚ cols2 →
  NoDup (map column_position cols1) →
  Converter.get_column_names schemas1 ds_name
  = Converter.get_column_names schemas2 ds_name ∧
  Loader.get_column_names schemas1 ds_name
  = Loader.get_column_names schemas2 ds_name.
Proof.
  intros H1 H2 Hperm Hnd.
  unfold Converter.get_column_names, Loader.get_column_names.
  rewrite H1, H2. by rewrite (sorted_perm_unique cols1 cols2).
Qed.

(** The body of the converter's loop on a dataset whose job returns or
    raises [NameError]. *)
Lemma process_one_goes_on (env : Source) (src tgt ds_name : string) (w : World) :
  (∀ (w1 w2 : World) (e : Py.exn),
     Converter.file_converter env src tgt ds_name w1 = (inl e, w2) →
     Py.is_NameError e = true) →
  ∃ (w' : World) (evs : list event),
    Converter.process_one env src tgt ds_name w = (inr tt, w') ∧
    trace w' = trace w ++ job_start ds_name :: evs ∧
    started evs = [] ∧ tables w' = tables w.
Proof.
  intros Hjob.
  unfold Converter.process_one, try_except, bind, print, emit.
  set (w1 := mkWorld _ _ _).
  pose proof (writes_under_file_converter env src tgt ds_name w1) as (Ht & Hr & _).
  specialize (Hjob w1).
  destruct (Converter.file_converter env src tgt ds_name w1) as [[e|[]] w2].
  - specialize (Hjob w2 e eq_refl). destruct e; try done.
    eexists _, [_; _]. split; [reflexivity|]. simpl in *.
    rewrite Hr, Ht. split; [by rewrite <- !app_assoc | done].
  - exists w2, []. simpl in *. by rewrite Hr, Ht.
Qed.

(** X11. When no job raises anything but [NameError], the converter's
    dispatcher returns normally and has started one job per name, in
    order; it never touches a table. *)
Theorem converter_dispatch_completes (env : Source) (environ : Environ)
    (schemas : Schemas) (ds_names : option (list string)) (w : World) :
  json_docs env !! (SRC_BASE_DIR environ +:+ "/schemas.json") = Some schemas →
  let names :=
    if falsy ds_names then Py.dict_keys schemas else default [] ds_names in
  (∀ (ds_name : string) (w1 w2 : World) (e : Py.exn),
     ds_name ∈ names →
     Converter.file_converter env (SRC_BASE_DIR environ) (TGT_BASE_DIR environ)
       ds_name w1 = (inl e, w2) →
     Py.is_NameError e = true) →
  ∃ (w' : World) (evs : list event),
    Converter.process_files env environ ds_names w = (inr tt, w') ∧
    trace w' = trace w ++ evs ∧
    started evs = map job_start names ∧
    tables w' = tables w.
Proof.
  intros Hdoc names Hjobs.
  unfold Converter.process_files. unfold bind at 1. unfold json_load.
  rewrite Hdoc. cbn [ret]. fold names. clearbody names. revert w.
  induction names as [|ds_name names IH]; intros w.
  - exists w, []. by rewrite app_nil_r.
  - cbn [for_each]. unfold bind at 1.
    destruct (process_one_goes_on env (SRC_BASE_DIR environ) (TGT_BASE_DIR environ)
                ds_name w) as (w1 & evs1 & Hone & Ht1 & Hs1 & Htab1).
    { intros w1 w2 e. apply Hjobs. left. }
    rewrite Hone.
    destruct (IH (λ ds w1 w2 e Hin, Hjobs ds w1 w2 e ltac:(by right)) w1)
      as (w2 & evs2 & Hrest & Ht2 & Hs2 & Htab2).
    exists w2, (job_start ds_name :: evs1 ++ evs2).
    split; [exact Hrest|]. rewrite Ht2, Ht1, <- app_assoc.
    rewrite started_job_start, started_app, Hs1, Hs2.
    split; [done|]. split; [done|congruence].
Qed.

(** ** Paths without a directory *)

Lemma re_split_two_segments s :
  no_sep s = false → ∃ segs a b, Py.re_split s = segs ++ [a; b].
Proof.
  induction s as [|c s IH]; simpl; [done|].
  destruct (Py.is_sep c) eqn:Hc; simpl.
  - intros _. pose proof (re_split_nonempty s) as Hne.
    destruct (Py.re_split s) as [|seg segs] using rev_ind; [done|].
    clear IHsegs. destruct segs as [|seg' segs _] using rev_ind.
    + by exists [], "", seg.
    + exists ("" :: segs), seg', seg. by rewrite <- !app_assoc.
  - intros Hs. destruct (IH Hs) as (segs & a & b & ->).
    destruct segs as [|seg segs]; simpl.
    + by exists [], (String c a), b.
    + by exists (String c seg :: segs), a, b.
Qed.

(** X15. Either reader fails with [IndexError] exactly on the paths that
    contain neither slash nor backslash: such a path has no
    second-to-last segment, and any other path has. *)
Theorem read_csv_IndexError_iff_no_directory (env : Source) (file : string)
    (schemas : Schemas) :
  (Converter.read_csv env file schemas = inl Py.IndexError ↔ no_sep file = true) ∧
  (Loader.read_csv env file schemas = inl Py.IndexError ↔ no_sep file = true).
Proof.
  unfold Converter.read_csv, Loader.read_csv.
  destruct (no_sep file) eqn:Hsep.
  - rewrite re_split_no_sep by done. by cbn.
  - destruct (re_split_two_segments file Hsep) as (segs & a & b & ->).
    rewrite index_last2_app.
    unfold Converter.get_column_names, Loader.get_column_names.
    unfold pd_read_csv, pd_read_csv_chunked.
    destruct (Py.dict_get schemas a); cbn [rbind];
      destruct (csv_rows env !! file); split; split; done.
Qed.

(** ** The job theorems at work on the example trees *)

Lemma example_schema :
  json_docs Example.env !! ("src" +:+ "/schemas.json") = Some Example.schemas.
Proof. by vm_compute. Qed.

Lemma example_orders_parts : lists_parts Example.env "src" "orders" ["part-0000"].
Proof. by vm_compute. Qed.

Lemma example_orders_readable : readable Example.env "src" "orders" ["part-0000"].
Proof.
  vm_compute. constructor; [|constructor].
  split; [reflexivity | by eexists].
Qed.

Lemma example_orders_taken : takes_all Example.env "orders".
Proof. by intros held df. Qed.

Lemma example_broken_taken : takes_all Example2.env_broken "orders".
Proof. by intros held df. Qed.

Lemma NoDup_one (name : string) : NoDup [name].
Proof. apply NoDup_singleton. Qed.

Lemma file_converter_writes_every_file_witness :
  ∃ w' : World,
    Converter.file_converter Example.env "src" "tgt" "orders" Example.w_old
    = (inr tt, w') ∧
    target_files w' !! "tgt/orders/part-0000"
    = Some [mkDataFrame ["id"; "amount"] Example.rows] ∧
    target_files w' !! "tgt/customers/part-0000" = None.
Proof.
  destruct (file_converter_writes_every_file Example.env Example.schemas
              "src" "tgt" "orders" _ ["part-0000"] Example.w_old
              example_schema eq_refl eq_refl example_orders_parts
              ltac:(discriminate) (NoDup_one _) example_orders_readable)
    as (w' & Hrun & _ & _ & Hin & Hout).
  exists w'. split; [exact Hrun|]. split.
  - etrans; [exact (Hin "part-0000" ltac:(left)) | by vm_compute].
  - etrans; [apply (Hout "tgt/customers/part-0000") | by vm_compute].
    intros name Hname. apply list_elem_of_singleton in Hname as ->. by vm_compute.
Defined.

Lemma db_loader_appends_all_rows_witness :
  ∃ w' : World,
    Loader.db_loader Example.env "src" "postgresql://" "orders" Example.w0
    = (inr tt, w') ∧
    tables w' !! "orders" = Some [mkDataFrame ["id"; "amount"] Example.rows] ∧
    trace w' = [Printed "Populating chunk 0 of orders"].
Proof.
  destruct (db_loader_appends_all_rows Example.env Example.schemas
              "src" "postgresql://" "orders" _ ["part-0000"] Example.w0
              example_schema eq_refl eq_refl example_orders_parts
              ltac:(discriminate) example_orders_readable
              example_orders_taken)
    as (w' & Hrun & Htab & _ & _ & _ & _ & Htrace).
  exists w'. split; [exact Hrun|]. split.
  - etrans; [exact Htab | by vm_compute].
  - etrans; [exact Htrace | by vm_compute].
Defined.

Lemma example_broken_good : readable Example2.env_broken "src" "orders" ["part-0000"].
Proof.
  vm_compute. constructor; [|constructor].
  split; [reflexivity | by eexists].
Qed.

Lemma example_broken_names :
  NoDup (["part-0000"] ++ "part-0001" :: ["part-0002"]).
Proof.
  apply (bool_decide_unpack _). by vm_compute.
Qed.

Lemma db_loader_keeps_rows_before_failure_witness :
  ∃ w' : World,
    Loader.db_loader Example2.env_broken "src" "postgresql://" "orders" Example.w0
    = (inl (Py.OSError "src/orders/part-0001"), w') ∧
    tables w' !! "orders" = Some [mkDataFrame ["id"; "amount"] Example.rows].
Proof.
  destruct (db_loader_keeps_rows_before_failure Example2.env_broken Example.schemas
              "src" "postgresql://" "orders" _ ["part-0000"] "part-0001"
              ["part-0002"] Example.w0
              ltac:(by vm_compute) eq_refl eq_refl ltac:(by vm_compute)
              example_broken_good eq_refl ltac:(by vm_compute)
              example_broken_taken)
    as (w' & Hrun & Htab & _).
  exists w'. split; [exact Hrun|]. etrans; [exact Htab | by vm_compute].
Defined.

Lemma file_converter_keeps_files_before_failure_witness :
  ∃ w' : World,
    Converter.file_converter Example2.env_broken "src" "tgt" "orders" Example.w0
    = (inl (Py.OSError "src/orders/part-0001"), w') ∧
    target_files w' !! "tgt/orders/part-0000"
    = Some [mkDataFrame ["id"; "amount"] Example.rows] ∧
    target_files w' !! "tgt/orders/part-0002" = None.
Proof.
  destruct (file_converter_keeps_files_before_failure Example2.env_broken
              Example.schemas "src" "tgt" "orders" _ ["part-0000"] "part-0001"
              ["part-0002"] Example.w0
              ltac:(by vm_compute) eq_refl eq_refl ltac:(by vm_compute)
              example_broken_names
              example_broken_good eq_refl ltac:(by vm_compute))
    as (w' & Hrun & Hin & Hout).
  exists w'. split; [exact Hrun|]. split.
  - etrans; [exact (Hin "part-0000" ltac:(left)) | by vm_compute].
  - etrans; [apply (Hout "tgt/orders/part-0002") | done].
    intros name Hname. apply list_elem_of_singleton in Hname as ->. by vm_compute.
Defined.

Lemma schema_unreadable_stops_run_witness :
  json_docs Example2.env_no_schema !! (SRC_BASE_DIR Example.environ +:+ "/schemas.json")
  = None ∧
  Converter.process_files Example2.env_no_schema Example.environ None Example.w0
  = (inl (Py.OSError "src/schemas.json"), Example.w0) ∧
  Loader.process_files Example2.env_no_schema Example.environ (Some ["orders"]) Example.w0
  = (inl (Py.OSError "src/schemas.json"), Example.w0).
Proof.
  assert (H : json_docs Example2.env_no_schema
                !! (SRC_BASE_DIR Example.environ +:+ "/schemas.json") = None)
    by by vm_compute.
  split; [exact H|]. split.
  - apply (schema_unreadable_stops_run Example2.env_no_schema Example.environ
             None "tgt" "postgresql://" "orders" Example.w0 H).
  - apply (schema_unreadable_stops_run Example2.env_no_schema Example.environ
             (Some ["orders"]) "tgt" "postgresql://" "orders" Example.w0 H).
Defined.

Lemma converter_never_ends_with_NameError_witness :
  ∃ w' : World,
    Converter.process_files Example.env Example.environ
      (Some ["returns"; "orders"]) Example.w0 = (inl (Py.KeyError "returns"), w') ∧
    Py.is_NameError (Py.KeyError "returns") = false.
Proof.
  eexists. split; [vm_compute; reflexivity|].
  eapply (converter_never_ends_with_NameError Example.env Example.environ
            (Some ["returns"; "orders"]) Example.w0).
  vm_compute. reflexivity.
Defined.

Lemma loader_touches_only_requested_tables_witness :
  json_docs Example.env !! (SRC_BASE_DIR Example.environ +:+ "/schemas.json")
  = Some Example.schemas ∧
  tables (Loader.process_files Example.env Example.environ (Some ["orders"])
            Example.w_old).2 !! "customers"
  = tables Example.w_old !! "customers" ∧
  target_files (Loader.process_files Example.env Example.environ (Some ["orders"])
                  Example.w_old).2
  = target_files Example.w_old.
Proof.
  assert (H : json_docs Example.env !! (SRC_BASE_DIR Example.environ +:+ "/schemas.json")
              = Some Example.schemas) by by vm_compute.
  split; [exact H|].
  destruct (loader_touches_only_requested_tables Example.env Example.environ
              Example.schemas (Some ["orders"]) Example.w_old H) as [Hf Ht].
  split; [|exact Hf].
  apply Ht. cbn. intros Hin. apply list_elem_of_singleton in Hin. discriminate.
Defined.

Lemma get_column_names_ignores_document_order_witness :
  Converter.get_column_names Example.schemas "customers"
  = Converter.get_column_names Example2.schemas_reordered "customers" ∧
  Loader.get_column_names Example.schemas "customers"
  = Loader.get_column_names Example2.schemas_reordered "customers".
Proof.
  apply (get_column_names_ignores_document_order Example.schemas
           Example2.schemas_reordered "customers"
           [mkColumn "name" 1; mkColumn "customer_id" 0]
           [mkColumn "customer_id" 0; mkColumn "name" 1]).
  - reflexivity.
  - reflexivity.
  - apply Permutation_swap.
  - cbn. apply NoDup_cons. split.
    + intros Hin. apply list_elem_of_singleton in Hin. discriminate.
    + apply NoDup_singleton.
Defined.

Lemma db_loader_rerun_loads_again_witness :
  ∃ w1 w2 : World,
    Loader.db_loader Example.env "src" "postgresql://" "orders" Example.w0 = (inr tt, w1) ∧
    Loader.db_loader Example.env "src" "postgresql://" "orders" w1 = (inr tt, w2) ∧
    tables w2 !! "orders"
    = Some [ mkDataFrame ["id"; "amount"] Example.rows;
             mkDataFrame ["id"; "amount"] Example.rows ].
Proof.
  destruct (db_loader_rerun_loads_again Example.env Example.schemas
              "src" "postgresql://" "orders" _ ["part-0000"] Example.w0
              example_schema eq_refl eq_refl example_orders_parts
              ltac:(discriminate) example_orders_readable
              example_orders_taken)
    as (w1 & w2 & H1 & H2 & Htab).
  exists w1, w2. split; [exact H1|]. split; [exact H2|].
  etrans; [exact Htab | by vm_compute].
Defined.

Lemma file_converter_ignores_listing_order_witness :
  glob_part Example2.env_two "src/orders"
  = ["src/orders/part-0000"; "src/orders/part-0001"] ∧
  glob_part Example2.env_two_reversed "src/orders"
  = ["src/orders/part-0001"; "src/orders/part-0000"] ∧
  Converter.file_converter Example2.env_two "src" "tgt" "orders" Example.w0
  = Converter.file_converter Example2.env_two_reversed "src" "tgt" "orders" Example.w0.
Proof.
  split; [by vm_compute|]. split; [by vm_compute|].
  apply (file_converter_ignores_listing_order Example2.env_two
           Example2.env_two_reversed Example.schemas "src" "tgt" "orders"
           [mkColumn "id" 0; mkColumn "amount" 1]
           ["part-0000"; "part-0001"] ["part-0001"; "part-0000"] Example.w0).
  - by vm_compute.
  - by vm_compute.
  - reflexivity.
  - by vm_compute.
  - by vm_compute.
  - apply Permutation_swap.
  - reflexivity.
  - reflexivity.
  - discriminate.
  - apply (bool_decide_unpack _). by vm_compute.
  - vm_compute. repeat constructor; by eexists.
Defined.

Lemma converter_dispatch_completes_witness :
  ∃ (w' : World) (evs : list event),
    Converter.process_files Example.env Example.environ
      (Some ["customers"; "orders"]) Example.w0 = (inr tt, w') ∧
    trace w' = trace Example.w0 ++ evs ∧
    started evs = [job_start "customers"; job_start "orders"] ∧
    tables w' = tables Example.w0.
Proof.
  apply (converter_dispatch_completes Example.env Example.environ Example.schemas
           (Some ["customers"; "orders"]) Example.w0).
  - by vm_compute.
  - intros ds_name w1 w2 e Hin Hrun. cbn in Hin.
    apply elem_of_cons in Hin as [->|Hin].
    + rewrite file_converter_no_files in Hrun by by vm_compute.
      vm_compute in Hrun. by injection Hrun as <- _.
    + apply list_elem_of_singleton in Hin as ->.
      rewrite (file_converter_run Example.env Example.schemas "src" "tgt" "orders"
                 [mkColumn "id" 0; mkColumn "amount" 1] ["part-0000"]) in Hrun;
        [discriminate | apply example_schema | reflexivity | reflexivity
        | apply example_orders_parts | discriminate | apply example_orders_readable].
Defined.
